(** * Visualizador de Dados Interativo: the callbacks of [projeto.py]

  A shallow embedding of the helper [parse_contents] and of the three Dash
  callbacks [update_data_store], [update_dropdowns_and_visibility] and
  [update_graph].  Python values keep the shape they have in the program:
  [None] is [option], text and bytes are [string], an exception is a value
  that a computation may raise, and what [print] writes is collected next to
  the result.  pandas, plotly express and [base64] are collaborators: the
  callbacks are defined over an arbitrary implementation of them. *)

From Stdlib Require Import String Ascii List Bool ZArith Arith Lia.
From Stdlib Require Import Numbers.DecimalString.
Import ListNotations.
Local Open Scope string_scope.
Local Open Scope list_scope.

(** ** Python text operations used by the program *)

Module PyStr.

(** [needle in haystack] on [str]: a substring test, letter case kept. *)
Fixpoint contains (needle haystack : string) : bool :=
  if String.prefix needle haystack then true
  else match haystack with
       | EmptyString => false
       | String _ rest => contains needle rest
       end.

(** [s.split(',')] as a fold: the pieces between the commas, at least one. *)
Fixpoint split_on (sep : ascii) (s : string) : list string :=
  match s with
  | EmptyString => [EmptyString]
  | String c rest =>
      if Ascii.eqb c sep then EmptyString :: split_on sep rest
      else match split_on sep rest with
           | [] => [String c EmptyString]
           | piece :: pieces => String c piece :: pieces
           end
  end.

(** Truth value of a [str]: only the empty one is false. *)
Definition truthy (s : string) : bool :=
  match s with
  | EmptyString => false
  | String _ _ => true
  end.

(** ASCII [str.lower()]; used only to phrase letter-case-blind matching. *)
Definition lower_ascii (c : ascii) : ascii :=
  let n := nat_of_ascii c in
  if Nat.leb 65 n && Nat.leb n 90 then ascii_of_nat (n + 32) else c.

Fixpoint lower (s : string) : string :=
  match s with
  | EmptyString => EmptyString
  | String c rest => String (lower_ascii c) (lower rest)
  end.

End PyStr.

(** ** Python values and effects *)

(** An instance of [Exception]: its class name and [str(e)].  Signals that do
  not derive from [Exception] ([KeyboardInterrupt], [SystemExit]) are
  outside the model. *)
Record exn : Type := { exn_class : string; exn_text : string }.

Inductive result (A : Type) : Type :=
| Return (a : A)
| Raise (e : exn).
Arguments Return {A} a.
Arguments Raise {A} e.

(** A computation: the lines written by [print], then how it ended. *)
Module Py.

Definition t (A : Type) : Type := (list string * result A)%type.

Definition ret {A} (a : A) : t A := ([], Return a).

Definition raise {A} (e : exn) : t A := ([], Raise e).

Definition lift {A} (r : result A) : t A := ([], r).

Definition print (line : string) : t unit := ([line], Return tt).

Definition bind {A B} (m : t A) (k : A -> t B) : t B :=
  match m with
  | (out, Return a) => let (out', r) := k a in (out ++ out', r)
  | (out, Raise e) => (out, Raise e)
  end.

(** [try: body / except Exception as e: handler(e)]. *)
Definition try_except {A} (body : t A) (handler : exn -> t A) : t A :=
  match body with
  | (out, Raise e) => let (out', r) := handler e in (out ++ out', r)
  | (out, Return a) => (out, Return a)
  end.

Definition stdout {A} (m : t A) : list string := fst m.
Definition outcome {A} (m : t A) : result A := snd m.

End Py.

Declare Scope py_scope.
Delimit Scope py_scope with py.
Notation "x <- m ;; k" := (Py.bind m (fun x => k))
(at level 61, m at next level, right associativity) : py_scope.
Notation "m ;;; k" := (Py.bind m (fun _ => k))
(at level 61, right associativity) : py_scope.

(** A column label or a dropdown value: [str] or [int].  A dropdown whose
  value is [None] is [None : option label]. *)
Inductive label : Type :=
| LStr (s : string)
| LInt (z : Z).

Definition label_eqb (a b : label) : bool :=
match a, b with
| LStr s, LStr s' => String.eqb s s'
| LInt z, LInt z' => Z.eqb z z'
| _, _ => false
end.

(** [bool(v)]: [None], the empty text and zero are false. *)
Definition truthy (v : option label) : bool :=
match v with
| None => false
| Some (LStr s) => PyStr.truthy s
| Some (LInt z) => negb (Z.eqb z 0)
end.

(** [v == 'text'] for a dropdown value. *)
Definition is_str (v : option label) (text : string) : bool :=
match v with
| Some (LStr s) => String.eqb s text
| _ => false
end.

(** ** The data carried between the callbacks *)

(** A cell of a frame.  No callback looks inside a cell; floating-point and
    date cells are left out. *)
Inductive cell : Type :=
| CNull
| CInt (z : Z)
| CStr (s : string).

(** A dataframe in the shape of [orient='split']. *)
Record DataFrame : Type := {
  columns : list label;
  index : list label;
  data : list (list cell)
}.

(** What a plotly express constructor hands back, and the layout attribute
  that [update_layout(transition_duration=...)] sets. *)
Record Figure : Type := {
  fig_kind : string;
  fig_frame : DataFrame;
  fig_x : option label;
  fig_y : option label;
  transition_duration : option Z
}.

(** The value bound to [fig] in [update_graph]: a figure or the dict [{}]. *)
Inductive fig_value : Type :=
| FigDict
| Fig (f : Figure).

(** [html.P(text, style={'color': c})]. *)
Record html_P : Type := { children : string; color : string }.

(** [{'display': d}]. *)
Record style : Type := { display : string }.

(** [{'label': i, 'value': i}]. *)
Record dropdown_option : Type := { opt_label : label; opt_value : label }.

(** ** Collaborators: base64, pandas and plotly express *)

Record Collaborators : Type := {
  (* [base64.b64decode(content_string)] *)
  b64decode : string -> result string;
  (* [decoded.decode('utf-8')] *)
  decode_utf8 : string -> result string;
  (* [pd.read_csv(io.StringIO(text))] *)
  read_csv_text : string -> result DataFrame;
  (* [pd.read_excel(io.BytesIO(decoded))] *)
  read_excel : string -> result DataFrame;
  (* [pd.read_csv(url)] *)
  read_csv_url : string -> result DataFrame;
  (* [df.to_json(date_format='iso', orient='split')] *)
  to_json_split : DataFrame -> result string;
  (* [pd.read_json(text, orient='split')] *)
  read_json_split : string -> result DataFrame;
  px_scatter : DataFrame -> option label -> option label -> result Figure;
  px_line : DataFrame -> option label -> option label -> result Figure;
  px_bar : DataFrame -> option label -> option label -> result Figure;
  (* [px.histogram(df, x=...)] *)
  px_histogram : DataFrame -> option label -> result Figure;
  (* [px.pie(df, names=..., values=...)] *)
  px_pie : DataFrame -> option label -> option label -> result Figure
}.

(** ** [projeto.py]: the helper and the three callbacks *)

Definition unsupported_message (filename : string) : string :=
  "Tipo de arquivo '" ++ filename ++ "' não suportado.".

Definition success_message (filename : string) : string :=
  "Arquivo '" ++ filename ++ "' carregado com sucesso!".

Definition processing_error_message : string :=
  "Ocorreu um erro ao processar o arquivo.".

Definition url_success_message : string :=
  "Dados carregados com sucesso do link!".

Definition url_error_message (e : exn) : string :=
  "Erro ao carregar do link: " ++ exn_text e.

(** What unpacking [a, b = pieces] raises when [pieces] has not two items. *)
Definition unpack_error (pieces : list string) : exn :=
  {| exn_class := "ValueError";
     exn_text := if Nat.ltb (List.length pieces) 2
                 then "not enough values to unpack (expected 2, got "
                      ++ NilEmpty.string_of_uint (Nat.to_uint (List.length pieces)) ++ ")"
                 else "too many values to unpack (expected 2)" |}.

(** [fig.update_layout] looked up on a dict. *)
Definition dict_has_no_update_layout : exn :=
  {| exn_class := "AttributeError";
     exn_text := "'dict' object has no attribute 'update_layout'" |}.

Section Callbacks.

Variable C : Collaborators.

Local Open Scope py_scope.

(** [parse_contents(contents, filename)], lines 81-97. *)
Definition parse_contents (contents filename : string)
  : Py.t (option DataFrame * string) :=
  match PyStr.split_on ","%char contents with
  | [content_type; content_string] =>
      decoded <- Py.lift (b64decode C content_string) ;;
      Py.try_except
        (if PyStr.contains "csv" filename then
           text <- Py.lift (decode_utf8 C decoded) ;;
           df <- Py.lift (read_csv_text C text) ;;
           Py.ret (Some df, success_message filename)
         else if PyStr.contains "xls" filename then
           df <- Py.lift (read_excel C decoded) ;;
           Py.ret (Some df, success_message filename)
         else
           Py.ret (None, unsupported_message filename))
        (fun e =>
           Py.print (exn_text e) ;;;
           Py.ret (None, processing_error_message))
  | pieces => Py.raise (unpack_error pieces)
  end.

(** [update_data_store(contents, n_clicks, filename, url)], lines 112-132.
    [triggered_id] is [callback_context.triggered_id]; [filename] is the name
    the upload widget sets together with [contents], read only on the upload
    branch. *)
Definition update_data_store (triggered_id : option string)
    (contents : option string) (n_clicks : Z) (filename : string)
    (url : option string) : Py.t (option string * html_P) :=
  loaded <-
    match triggered_id, contents, url with
    | Some "upload-data", Some c, _ => parse_contents c filename
    | Some "load-url-button", _, Some u =>
        if PyStr.truthy u then
          Py.try_except
            (df <- Py.lift (read_csv_url C u) ;;
             Py.ret (Some df, url_success_message))
            (fun e => Py.ret (None, url_error_message e))
        else Py.ret (None, EmptyString)
    | _, _, _ => Py.ret (None, EmptyString)
    end ;;
  match loaded with
  | (Some df, status_message) =>
      json <- Py.lift (to_json_split C df) ;;
      Py.ret (Some json, {| children := status_message; color := "green" |})
  | (None, status_message) =>
      Py.ret (None, {| children := status_message; color := "red" |})
  end.

(** [update_dropdowns_and_visibility(jsonified_dataframe)], lines 144-158. *)
Definition update_dropdowns_and_visibility (jsonified_dataframe : option string)
  : Py.t (style * list dropdown_option * list dropdown_option
          * option label * option label) :=
  match jsonified_dataframe with
  | None => Py.ret ({| display := "none" |}, [], [], None, None)
  | Some json =>
      df <- Py.lift (read_json_split C json) ;;
      let options :=
        List.map (fun i => {| opt_label := i; opt_value := i |}) (columns df) in
      let initial_x :=
        if Nat.ltb 0 (List.length (columns df)) then List.nth_error (columns df) 0
        else None in
      let initial_y :=
        if Nat.ltb 1 (List.length (columns df)) then List.nth_error (columns df) 1
        else None in
      Py.ret ({| display := "block" |}, options, options, initial_x, initial_y)
  end.

(** [fig.update_layout(transition_duration=ms)]. *)
Definition update_layout (fig : fig_value) (ms : Z) : Py.t fig_value :=
  match fig with
  | Fig f =>
      Py.ret (Fig {| fig_kind := fig_kind f; fig_frame := fig_frame f;
                     fig_x := fig_x f; fig_y := fig_y f;
                     transition_duration := Some ms |})
  | FigDict => Py.raise dict_has_no_update_layout
  end.

(** [update_graph(jsonified_dataframe, xaxis_col, yaxis_col, chart_type)],
    lines 169-193. *)
Definition update_graph (jsonified_dataframe : option string)
    (xaxis_col yaxis_col chart_type : option label) : Py.t fig_value :=
  match jsonified_dataframe with
  | None => Py.ret FigDict
  | Some json =>
      if negb (truthy xaxis_col) || negb (truthy yaxis_col) then Py.ret FigDict
      else
        df <- Py.lift (read_json_split C json) ;;
        fig <-
          (if is_str chart_type "scatter" then
             f <- Py.lift (px_scatter C df xaxis_col yaxis_col) ;; Py.ret (Fig f)
           else if is_str chart_type "line" then
             f <- Py.lift (px_line C df xaxis_col yaxis_col) ;; Py.ret (Fig f)
           else if is_str chart_type "bar" then
             f <- Py.lift (px_bar C df xaxis_col yaxis_col) ;; Py.ret (Fig f)
           else if is_str chart_type "histogram" then
             f <- Py.lift (px_histogram C df xaxis_col) ;; Py.ret (Fig f)
           else if is_str chart_type "pie" then
             f <- Py.lift (px_pie C df xaxis_col yaxis_col) ;; Py.ret (Fig f)
           else Py.ret FigDict) ;;
        fig' <- update_layout fig 500 ;;
        Py.ret fig'
  end.

(** ** The session: the [dcc.Store] and the status line *)

Record session : Type := {
    stored_data : option string;
    upload_status : option html_P
}.

(** One firing of the first callback.  Its two outputs replace the store and
    the status line; when the callback raises, Dash reports the error and
    leaves both outputs as they were. *)
Definition fire_update_data_store (s : session) (triggered_id : option string)
    (contents : option string) (n_clicks : Z) (filename : string)
    (url : option string) : session :=
  match Py.outcome (update_data_store triggered_id contents n_clicks filename url) with
  | Return (json, status) =>
      {| stored_data := json; upload_status := Some status |}
  | Raise _ => s
  end.

End Callbacks.

(** ** Vocabulary of the specification, placed on the code's paths *)

(** [pd.read_csv(io.StringIO(decoded.decode('utf-8')))] as one reader. *)
Definition parse_csv (C : Collaborators) (decoded : string) : result DataFrame :=
  match decode_utf8 C decoded with
  | Return text => read_csv_text C text
  | Raise e => Raise e
  end.

(** What [parse_contents] answers once a reader has been run on the bytes:
    the frame and the success line, or nothing, the fixed error line and the
    exception on standard output. *)
Definition answer_of_reader (parsed : result DataFrame) (filename : string)
  : Py.t (option DataFrame * string) :=
  match parsed with
  | Return df => ([], Return (Some df, success_message filename))
  | Raise e => ([exn_text e], Return (None, processing_error_message))
  end.

(** A well-formed upload: [contents] is [<type>,<payload>] and the payload
    decodes to [decoded]. *)
Definition raw_upload (C : Collaborators) (contents decoded : string) : Prop :=
  exists content_type payload,
    PyStr.split_on ","%char contents = [content_type; payload]
    /\ b64decode C payload = Return decoded.

(** The specification's wording of the match: the needle occurs in the
    filename in any letter case. *)
Definition contains_any_case (needle filename : string) : bool :=
  PyStr.contains needle (PyStr.lower filename).

(** Parser selection by a substring test [occurs]: "csv" first, then "xls",
    else the unsupported-type answer, whose text carries the filename. *)
Definition selects_parser_by (occurs : string -> string -> bool)
    (C : Collaborators) (contents decoded filename : string) : Prop :=
  (occurs "csv" filename = true ->
     parse_contents C contents filename
     = answer_of_reader (parse_csv C decoded) filename)
  /\ (occurs "csv" filename = false -> occurs "xls" filename = true ->
     parse_contents C contents filename
     = answer_of_reader (read_excel C decoded) filename)
  /\ (occurs "csv" filename = false -> occurs "xls" filename = false ->
     parse_contents C contents filename
     = ([], Return (None, unsupported_message filename))
     /\ PyStr.contains filename (unsupported_message filename) = true).

Inductive failure_kind : Type :=
| UnsupportedFormat
| ParseError
| FetchError.

(** The failing ingestion attempts, by kind: the inputs of
    [update_data_store] (trigger, contents, filename, url) on which an upload
    names no known format, a chosen reader raises, or the link cannot be
    read. *)
Inductive ingestion_fails (C : Collaborators)
  : option string -> option string -> string -> option string
    -> failure_kind -> Prop :=
| fails_unsupported contents decoded filename url :
    raw_upload C contents decoded ->
    PyStr.contains "csv" filename = false ->
    PyStr.contains "xls" filename = false ->
    ingestion_fails C (Some "upload-data") (Some contents) filename url
      UnsupportedFormat
| fails_csv contents decoded filename url e :
    raw_upload C contents decoded ->
    PyStr.contains "csv" filename = true ->
    parse_csv C decoded = Raise e ->
    ingestion_fails C (Some "upload-data") (Some contents) filename url
      ParseError
| fails_xls contents decoded filename url e :
    raw_upload C contents decoded ->
    PyStr.contains "csv" filename = false ->
    PyStr.contains "xls" filename = true ->
    read_excel C decoded = Raise e ->
    ingestion_fails C (Some "upload-data") (Some contents) filename url
      ParseError
| fails_fetch contents filename u e :
    PyStr.truthy u = true ->
    read_csv_url C u = Raise e ->
    ingestion_fails C (Some "load-url-button") contents filename (Some u)
      FetchError.

(** The five tags offered by the chart-type dropdown. *)
Definition known_chart_type (chart_type : option label) : bool :=
  is_str chart_type "scatter" || is_str chart_type "line"
  || is_str chart_type "bar" || is_str chart_type "histogram"
  || is_str chart_type "pie".

(** A column selection that is [None] or the empty text. *)
Definition none_or_empty (v : option label) : Prop :=
  v = None \/ v = Some (LStr EmptyString).

(** ** Stand-in collaborators, to run the callbacks on concrete inputs

    Small executable versions of the library calls: a base64 decoder for the
    standard alphabet, an ASCII text decoder, a comma-separated reader that
    knows whole numbers and text, no spreadsheet reader and no network. *)

Module Sample.

Definition between (lo hi n : N) : bool := N.leb lo n && N.leb n hi.

(** The six bits a base64 character stands for. *)
Definition sextet (c : ascii) : option N :=
  let n := N_of_ascii c in
  if between 65 90 n then Some (n - 65)%N
  else if between 97 122 n then Some (n - 71)%N
  else if between 48 57 n then Some (n + 4)%N
  else if N.eqb n 43 then Some 62%N
  else if N.eqb n 47 then Some 63%N
  else None.

Definition is_b64_char (c : ascii) : bool :=
  match sextet c with
  | Some _ => true
  | None => Ascii.eqb c "="
  end.

Definition octet (n : N) : ascii := ascii_of_N (N.modulo n 256).

Definition incorrect_padding : exn :=
  {| exn_class := "binascii.Error"; exn_text := "Incorrect padding" |}.

Fixpoint decode_quads (cs : list ascii) : result string :=
  match cs with
  | [] => Return EmptyString
  | a :: b :: c :: d :: rest =>
      match sextet a, sextet b, sextet c, sextet d with
      | Some va, Some vb, Some vc, Some vd =>
          match decode_quads rest with
          | Return tail =>
              Return (String (octet (va * 4 + vb / 16))
                     (String (octet (vb * 16 + vc / 4))
                     (String (octet (vc * 64 + vd)) tail)))
          | Raise e => Raise e
          end
      | Some va, Some vb, Some vc, None =>
          match rest with
          | [] => Return (String (octet (va * 4 + vb / 16))
                         (String (octet (vb * 16 + vc / 4)) EmptyString))
          | _ :: _ => Raise incorrect_padding
          end
      | Some va, Some vb, None, None =>
          match rest with
          | [] => Return (String (octet (va * 4 + vb / 16)) EmptyString)
          | _ :: _ => Raise incorrect_padding
          end
      | _, _, _, _ => Raise incorrect_padding
      end
  | _ => Raise incorrect_padding
  end.

(** Characters outside the alphabet are dropped before decoding. *)
Definition b64decode (payload : string) : result string :=
  decode_quads (List.filter is_b64_char (list_ascii_of_string payload)).

Fixpoint all_ascii (s : string) : bool :=
  match s with
  | EmptyString => true
  | String c rest => N.ltb (N_of_ascii c) 128 && all_ascii rest
  end.

Definition decode_utf8 (bytes : string) : result string :=
  if all_ascii bytes then Return bytes
  else Raise {| exn_class := "UnicodeDecodeError";
                exn_text := "'utf-8' codec can't decode bytes" |}.

Definition newline : ascii := ascii_of_nat 10.

Definition digit (c : ascii) : option Z :=
  let n := N_of_ascii c in
  if between 48 57 n then Some (Z.of_N (n - 48)) else None.

Fixpoint number_from (acc : Z) (s : string) : option Z :=
  match s with
  | EmptyString => Some acc
  | String c rest =>
      match digit c with
      | Some d => number_from (acc * 10 + d) rest
      | None => None
      end
  end.

Definition cell_of_text (s : string) : cell :=
  match s with
  | EmptyString => CNull
  | String _ _ =>
      match number_from 0 s with
      | Some z => CInt z
      | None => CStr s
      end
  end.

Definition row_index (rows : list string) : list label :=
  List.map (fun i => LInt (Z.of_nat i)) (List.seq 0 (List.length rows)).

Definition read_csv_text (text : string) : result DataFrame :=
  match List.filter PyStr.truthy (PyStr.split_on newline text) with
  | [] => Raise {| exn_class := "EmptyDataError";
                   exn_text := "No columns to parse from file" |}
  | header :: rows =>
      Return {| columns := List.map LStr (PyStr.split_on ","%char header);
                index := row_index rows;
                data := List.map (fun r => List.map cell_of_text
                                            (PyStr.split_on ","%char r)) rows |}
  end.

Definition read_excel (bytes : string) : result DataFrame :=
  Raise {| exn_class := "ValueError";
           exn_text := "Excel file format cannot be determined, you must specify an engine manually." |}.

Definition read_csv_url (url : string) : result DataFrame :=
  Raise {| exn_class := "FileNotFoundError";
           exn_text := "[Errno 2] No such file or directory: '" ++ url ++ "'" |}.

Definition quote : string := String (ascii_of_nat 34) EmptyString.

Definition json_text (s : string) : string := quote ++ s ++ quote.

Definition json_int (z : Z) : string := NilEmpty.string_of_int (Z.to_int z).

Definition json_array (items : list string) : string :=
  "[" ++ String.concat "," items ++ "]".

Definition json_label (l : label) : string :=
  match l with
  | LStr s => json_text s
  | LInt z => json_int z
  end.

Definition json_cell (c : cell) : string :=
  match c with
  | CNull => "null"
  | CInt z => json_int z
  | CStr s => json_text s
  end.

Definition to_json_split (df : DataFrame) : result string :=
  Return ("{" ++ json_text "columns" ++ ":"
          ++ json_array (List.map json_label (columns df))
          ++ "," ++ json_text "index" ++ ":"
          ++ json_array (List.map json_label (index df))
          ++ "," ++ json_text "data" ++ ":"
          ++ json_array (List.map (fun r => json_array (List.map json_cell r))
                                  (data df))
          ++ "}")%string.

(** The frame of [x,y / 1,2 / 3,4], a one-column frame and the empty one. *)
Definition frame_xy : DataFrame :=
  {| columns := [LStr "x"; LStr "y"];
     index := [LInt 0; LInt 1];
     data := [[CInt 1; CInt 2]; [CInt 3; CInt 4]] |}.

Definition frame_a : DataFrame :=
  {| columns := [LStr "a"]; index := [LInt 0]; data := [[CInt 7]] |}.

Definition frame_empty : DataFrame :=
  {| columns := []; index := []; data := [] |}.

Definition known_frames : list DataFrame := [frame_xy; frame_a; frame_empty].

Definition writes (text : string) (df : DataFrame) : bool :=
  match to_json_split df with
  | Return t => String.eqb t text
  | Raise _ => false
  end.

(** Reads back the snapshots of the frames above, nothing else. *)
Definition read_json_split (text : string) : result DataFrame :=
  match List.find (writes text) known_frames with
  | Some df => Return df
  | None => Raise {| exn_class := "ValueError";
                     exn_text := "Expected object or value" |}
  end.

Definition names_column (df : DataFrame) (v : option label) : bool :=
  match v with
  | Some l => List.existsb (label_eqb l) (columns df)
  | None => true
  end.

Definition px (kind : string) (df : DataFrame) (x y : option label)
  : result Figure :=
  if names_column df x && names_column df y then
    Return {| fig_kind := kind; fig_frame := df; fig_x := x; fig_y := y;
              transition_duration := None |}
  else
    Raise {| exn_class := "ValueError";
             exn_text := "Value is not the name of a column in 'data_frame'" |}.

Definition collaborators : Collaborators :=
  Build_Collaborators b64decode decode_utf8 read_csv_text read_excel
    read_csv_url to_json_split read_json_split
    (px "scatter") (px "line") (px "bar")
    (fun df x => px "histogram" df x None) (px "pie").

(** [data.csv] with the text [x,y / 1,2 / 3,4], as the upload widget sends it. *)
Definition csv_contents : string := "data:text/csv;base64,eCx5CjEsMgozLDQK".

Definition csv_text : string :=
  "x,y" ++ String newline ("1,2" ++ String newline ("3,4" ++ String newline EmptyString)).

(** The snapshot [to_json] makes of [frame_xy]. *)
Definition snapshot_xy : string :=
  "{" ++ json_text "columns" ++ ":[" ++ json_text "x" ++ "," ++ json_text "y"
  ++ "]," ++ json_text "index" ++ ":[0,1]," ++ json_text "data"
  ++ ":[[1,2],[3,4]]}".

(** The snapshot of [frame_a]. *)
Definition snapshot_a : string :=
  "{" ++ json_text "columns" ++ ":[" ++ json_text "a" ++ "],"
  ++ json_text "index" ++ ":[0]," ++ json_text "data" ++ ":[[7]]}".

End Sample.

(** ** The layout read by the callbacks, and counting helpers *)

(** [s.count(sep)]: how many times the character occurs. *)
Fixpoint count_char (sep : ascii) (s : string) : nat :=
  match s with
  | EmptyString => 0
  | String c rest =>
      if Ascii.eqb c sep then S (count_char sep rest) else count_char sep rest
  end.


(** [value='scatter'], line 69. *)
Definition chart_type_initial : option label := Some (LStr "scatter").

(** The style [visualization-container] starts with, line 76. *)
Definition visualization_container_initial : style := {| display := "none" |}.

(** Whether [triggered_id == name]. *)
Definition triggered_by (triggered_id : option string) (name : string) : bool :=
  match triggered_id with
  | Some id => String.eqb id name
  | None => false
  end.

(** Named parts of [update_data_store], to state how it branches: what is
    loaded when neither branch is taken, what the link branch loads (lines
    122-126), and the two outputs made from what was loaded (lines 128-132). *)
Definition nothing_loaded : Py.t (option DataFrame * string) :=
  Py.ret (None, EmptyString).

Definition load_link (C : Collaborators) (u : string)
  : Py.t (option DataFrame * string) :=
  Py.try_except
    (Py.bind (Py.lift (read_csv_url C u))
       (fun df => Py.ret (Some df, url_success_message)))
    (fun e => Py.ret (None, url_error_message e)).

Definition store_outputs (C : Collaborators)
    (loaded : option DataFrame * string) : Py.t (option string * html_P) :=
  match loaded with
  | (Some df, status_message) =>
      Py.bind (Py.lift (to_json_split C df))
        (fun json =>
           Py.ret (Some json,
                   {| children := status_message; color := "green" |}))
  | (None, status_message) =>
      Py.ret (None, {| children := status_message; color := "red" |})
  end.

(** The ingestion attempts that load a frame [df] with status line
    [message]: an upload whose selected reader returns [df], or a link that
    reads as [df]. *)
Inductive ingestion_loads (C : Collaborators)
  : option string -> option string -> string -> option string
    -> DataFrame -> string -> Prop :=
| loads_csv contents decoded filename url df :
    raw_upload C contents decoded ->
    PyStr.contains "csv" filename = true ->
    parse_csv C decoded = Return df ->
    ingestion_loads C (Some "upload-data") (Some contents) filename url
      df (success_message filename)
| loads_xls contents decoded filename url df :
    raw_upload C contents decoded ->
    PyStr.contains "csv" filename = false ->
    PyStr.contains "xls" filename = true ->
    read_excel C decoded = Return df ->
    ingestion_loads C (Some "upload-data") (Some contents) filename url
      df (success_message filename)
| loads_link contents filename u df :
    PyStr.truthy u = true ->
    read_csv_url C u = Return df ->
    ingestion_loads C (Some "load-url-button") contents filename (Some u)
      df url_success_message.

(** ** Concrete runs *)

Example contains_mid : PyStr.contains "csv" "dados.csv.bak" = true.
Proof. reflexivity. Qed.

Example contains_keeps_case : PyStr.contains "csv" "DADOS.CSV" = false.
Proof. reflexivity. Qed.

Example split_data_url :
  PyStr.split_on ","%char Sample.csv_contents = ["data:text/csv;base64"; "eCx5CjEsMgozLDQK"].
Proof. reflexivity. Qed.

Example sample_b64 : Sample.b64decode "eCx5CjEsMgozLDQK" = Return Sample.csv_text.
Proof. vm_compute. reflexivity. Qed.

Example sample_csv : Sample.read_csv_text Sample.csv_text = Return Sample.frame_xy.
Proof. vm_compute. reflexivity. Qed.

Example sample_snapshot : Sample.to_json_split Sample.frame_xy = Return Sample.snapshot_xy.
Proof. vm_compute. reflexivity. Qed.

Example sample_read_back : Sample.read_json_split Sample.snapshot_xy = Return Sample.frame_xy.
Proof. vm_compute. reflexivity. Qed.

(** The scenario of [data.csv]: stored as a snapshot, with a green status. *)
Example upload_data_csv :
  update_data_store Sample.collaborators (Some "upload-data")
    (Some Sample.csv_contents) 0 "data.csv" None
  = ([], Return (Some Sample.snapshot_xy,
                 {| children := "Arquivo 'data.csv' carregado com sucesso!";
                    color := "green" |})).
Proof. vm_compute. reflexivity. Qed.

Example scatter_data_csv :
  update_graph Sample.collaborators (Some Sample.snapshot_xy)
    (Some (LStr "x")) (Some (LStr "y")) (Some (LStr "scatter"))
  = ([], Return (Fig {| fig_kind := "scatter"; fig_frame := Sample.frame_xy;
                        fig_x := Some (LStr "x"); fig_y := Some (LStr "y");
                        transition_duration := Some 500%Z |})).
Proof. vm_compute. reflexivity. Qed.

(** ** Substring facts *)

Lemma prefix_append (s rest : string) : String.prefix s (s ++ rest) = true.
Proof.
  induction s as [|c s IH]; simpl.
  - destruct rest; reflexivity.
  - destruct (ascii_dec c c) as [_|Hne]; [exact IH | now elim Hne].
Qed.

Lemma contains_of_prefix (needle haystack : string) :
  String.prefix needle haystack = true -> PyStr.contains needle haystack = true.
Proof.
  intros Hp. destruct haystack; cbn [PyStr.contains]; rewrite Hp; reflexivity.
Qed.

Lemma contains_skip (needle : string) (c : ascii) (haystack : string) :
  PyStr.contains needle haystack = true ->
  PyStr.contains needle (String c haystack) = true.
Proof.
  intros Hc. cbn [PyStr.contains].
  destruct (String.prefix needle (String c haystack)); [reflexivity | exact Hc].
Qed.

Lemma contains_infix (before needle after : string) :
  PyStr.contains needle (before ++ needle ++ after) = true.
Proof.
  induction before as [|c before IH].
  - cbn [append]. apply contains_of_prefix, prefix_append.
  - change (String c before ++ needle ++ after)%string
      with (String c (before ++ needle ++ after)%string).
    apply contains_skip, IH.
Qed.

Lemma contains_suffix (before needle : string) :
  PyStr.contains needle (before ++ needle) = true.
Proof.
  induction before as [|c before IH].
  - cbn [append]. apply contains_of_prefix.
    induction needle as [|a needle IHn]; simpl; [reflexivity|].
    destruct (ascii_dec a a) as [_|Hne]; [exact IHn | now elim Hne].
  - change (String c before ++ needle)%string with (String c (before ++ needle)%string).
    apply contains_skip, IH.
Qed.

(** ** How [parse_contents] runs on a well-formed upload *)

Section ParseContents.

Variable C : Collaborators.
Variables contents decoded filename : string.
Hypothesis upload : raw_upload C contents decoded.

Lemma parse_contents_csv :
  PyStr.contains "csv" filename = true ->
  parse_contents C contents filename
  = answer_of_reader (parse_csv C decoded) filename.
Proof.
  intros Hcsv. destruct upload as (content_type & payload & Hsplit & Hdec).
  unfold parse_contents, parse_csv. rewrite Hsplit, Hdec. simpl. rewrite Hcsv.
  destruct (decode_utf8 C decoded) as [text|e]; simpl; [|reflexivity].
  destruct (read_csv_text C text) as [df|e]; reflexivity.
Qed.

Lemma parse_contents_xls :
  PyStr.contains "csv" filename = false ->
  PyStr.contains "xls" filename = true ->
  parse_contents C contents filename
  = answer_of_reader (read_excel C decoded) filename.
Proof.
  intros Hcsv Hxls. destruct upload as (content_type & payload & Hsplit & Hdec).
  unfold parse_contents. rewrite Hsplit, Hdec. simpl. rewrite Hcsv, Hxls.
  destruct (read_excel C decoded) as [df|e]; reflexivity.
Qed.

Lemma parse_contents_unsupported :
  PyStr.contains "csv" filename = false ->
  PyStr.contains "xls" filename = false ->
  parse_contents C contents filename
  = ([], Return (None, unsupported_message filename)).
Proof.
  intros Hcsv Hxls. destruct upload as (content_type & payload & Hsplit & Hdec).
  unfold parse_contents. rewrite Hsplit, Hdec. simpl. rewrite Hcsv, Hxls.
  reflexivity.
Qed.

End ParseContents.

Lemma sample_upload :
  raw_upload Sample.collaborators Sample.csv_contents Sample.csv_text.
Proof.
  exists "data:text/csv;base64", "eCx5CjEsMgozLDQK".
  split; vm_compute; reflexivity.
Qed.

Lemma unsupported_message_names_file (filename : string) :
  PyStr.contains filename (unsupported_message filename) = true.
Proof. unfold unsupported_message. apply contains_infix. Qed.

(** ** Ingestion: choice of the reader *)

(** C1, as the code has it: for every well-formed upload, [parse_contents]
    chooses the reader by a letter-case-keeping substring test on the
    filename: the CSV reader when it contains "csv", else the spreadsheet
    reader when it contains "xls", and when it contains neither the answer is
    no frame and the unsupported-type message, which carries the filename. *)
Theorem parse_contents_selects_by_exact_match
    (C : Collaborators) (contents decoded filename : string) :
  raw_upload C contents decoded ->
  selects_parser_by PyStr.contains C contents decoded filename.
Proof.
  intros Hup. repeat split.
  - now apply parse_contents_csv.
  - now apply parse_contents_xls.
  - now apply parse_contents_unsupported with (decoded := decoded).
  - apply unsupported_message_names_file.
Qed.

Lemma parse_contents_selects_by_exact_match_witness :
  raw_upload Sample.collaborators Sample.csv_contents Sample.csv_text
  /\ selects_parser_by PyStr.contains Sample.collaborators
       Sample.csv_contents Sample.csv_text "data.csv".
Proof.
  split.
  - exact sample_upload.
  - apply (parse_contents_selects_by_exact_match Sample.collaborators
             Sample.csv_contents Sample.csv_text "data.csv").
    exact sample_upload.
Defined.

(** C1, as the specification words it (any letter case), fails: [DADOS.CSV]
    contains "csv" in upper case, yet the upload is answered as an
    unsupported type and the CSV reader is not consulted. *)
Lemma any_case_match_counterexample :
  raw_upload Sample.collaborators Sample.csv_contents Sample.csv_text
  /\ contains_any_case "csv" "DADOS.CSV" = true
  /\ parse_contents Sample.collaborators Sample.csv_contents "DADOS.CSV"
     = ([], Return (None, "Tipo de arquivo 'DADOS.CSV' não suportado."))
  /\ ~ selects_parser_by contains_any_case Sample.collaborators
         Sample.csv_contents Sample.csv_text "DADOS.CSV".
Proof.
  split; [exact sample_upload|].
  split; [reflexivity|].
  split; [vm_compute; reflexivity|].
  intros [Hcsv _]. specialize (Hcsv eq_refl).
  vm_compute in Hcsv. discriminate Hcsv.
Qed.

(** C10: when the filename contains both "csv" and "xls", the CSV reader is
    the one that is run; the answer is the CSV reader's, whatever the
    spreadsheet reader would do with the bytes. *)
Theorem csv_takes_precedence_over_xls
    (C : Collaborators) (contents decoded filename : string) :
  raw_upload C contents decoded ->
  PyStr.contains "csv" filename = true ->
  PyStr.contains "xls" filename = true ->
  parse_contents C contents filename
  = answer_of_reader (parse_csv C decoded) filename.
Proof.
  intros Hup Hcsv _. now apply parse_contents_csv.
Qed.

Lemma csv_takes_precedence_over_xls_witness :
  raw_upload Sample.collaborators Sample.csv_contents Sample.csv_text
  /\ PyStr.contains "csv" "vendas.xls.csv" = true
  /\ PyStr.contains "xls" "vendas.xls.csv" = true
  /\ parse_contents Sample.collaborators Sample.csv_contents "vendas.xls.csv"
     = answer_of_reader (parse_csv Sample.collaborators Sample.csv_text)
         "vendas.xls.csv".
Proof.
  split; [exact sample_upload|].
  split; [reflexivity|].
  split; [reflexivity|].
  apply (csv_takes_precedence_over_xls Sample.collaborators
           Sample.csv_contents Sample.csv_text "vendas.xls.csv").
  - exact sample_upload.
  - reflexivity.
  - reflexivity.
Defined.

Example upload_vendas_xls_csv :
  parse_contents Sample.collaborators Sample.csv_contents "vendas.xls.csv"
  = ([], Return (Some Sample.frame_xy,
                 "Arquivo 'vendas.xls.csv' carregado com sucesso!")).
Proof. vm_compute. reflexivity. Qed.

(** ** Ingestion: failures *)

(** C5: when the filename selects a reader and that reader raises on the
    bytes, [parse_contents] answers with no frame and the fixed line
    "Ocorreu um erro ao processar o arquivo.", the same for every exception,
    and the text of the exception goes to standard output. *)
Theorem reader_failure_gives_generic_message
    (C : Collaborators) (contents decoded filename : string) (e : exn) :
  raw_upload C contents decoded ->
  (PyStr.contains "csv" filename = true /\ parse_csv C decoded = Raise e)
  \/ (PyStr.contains "csv" filename = false
      /\ PyStr.contains "xls" filename = true
      /\ read_excel C decoded = Raise e) ->
  parse_contents C contents filename
  = ([exn_text e], Return (None, "Ocorreu um erro ao processar o arquivo.")).
Proof.
  intros Hup [[Hcsv Hraise] | (Hcsv & Hxls & Hraise)].
  - rewrite (parse_contents_csv C contents decoded filename Hup Hcsv), Hraise.
    reflexivity.
  - rewrite (parse_contents_xls C contents decoded filename Hup Hcsv Hxls), Hraise.
    reflexivity.
Qed.

Lemma reader_failure_gives_generic_message_witness :
  raw_upload Sample.collaborators Sample.csv_contents Sample.csv_text
  /\ PyStr.contains "csv" "planilha.xlsx" = false
  /\ PyStr.contains "xls" "planilha.xlsx" = true
  /\ parse_contents Sample.collaborators Sample.csv_contents "planilha.xlsx"
     = (["Excel file format cannot be determined, you must specify an engine manually."],
        Return (None, "Ocorreu um erro ao processar o arquivo.")).
Proof.
  split; [exact sample_upload|].
  split; [reflexivity|].
  split; [reflexivity|].
  apply (reader_failure_gives_generic_message Sample.collaborators
           Sample.csv_contents Sample.csv_text "planilha.xlsx"
           {| exn_class := "ValueError";
              exn_text := "Excel file format cannot be determined, you must specify an engine manually." |}).
  - exact sample_upload.
  - right. repeat split; reflexivity.
Defined.

(** An empty CSV payload: the reader finds no columns, the user sees the same
    fixed line. *)
Example upload_empty_csv :
  parse_contents Sample.collaborators "data:text/csv;base64," "vazio.csv"
  = (["No columns to parse from file"],
     Return (None, "Ocorreu um erro ao processar o arquivo.")).
Proof. vm_compute. reflexivity. Qed.

(** How [update_data_store] continues from what was loaded. *)
Lemma update_data_store_upload (C : Collaborators) (contents : string)
    (n_clicks : Z) (filename : string) (url : option string) :
  update_data_store C (Some "upload-data") (Some contents) n_clicks filename url
  = Py.bind (parse_contents C contents filename)
      (fun loaded =>
         match loaded with
         | (Some df, status_message) =>
             Py.bind (Py.lift (to_json_split C df))
               (fun json =>
                  Py.ret (Some json,
                          {| children := status_message; color := "green" |}))
         | (None, status_message) =>
             Py.ret (None, {| children := status_message; color := "red" |})
         end).
Proof. reflexivity. Qed.

Lemma update_data_store_link_failure (C : Collaborators)
    (contents : option string) (n_clicks : Z) (filename u : string) (e : exn) :
  PyStr.truthy u = true ->
  read_csv_url C u = Raise e ->
  update_data_store C (Some "load-url-button") contents n_clicks filename (Some u)
  = ([], Return (None, {| children := url_error_message e; color := "red" |})).
Proof.
  intros Hu Hraise. unfold update_data_store.
  destruct contents; cbn; rewrite Hu; cbn; rewrite Hraise; reflexivity.
Qed.

(** C6: when the link is given and reading it raises, [update_data_store]
    answers with the red status line "Erro ao carregar do link: " followed by
    the text of the exception, so the line contains that text. *)
Theorem link_failure_shows_cause
    (C : Collaborators) (contents : option string) (n_clicks : Z)
    (filename u : string) (e : exn) :
  PyStr.truthy u = true ->
  read_csv_url C u = Raise e ->
  update_data_store C (Some "load-url-button") contents n_clicks filename (Some u)
  = ([], Return (None, {| children := "Erro ao carregar do link: " ++ exn_text e;
                          color := "red" |}))
  /\ PyStr.contains (exn_text e) ("Erro ao carregar do link: " ++ exn_text e) = true.
Proof.
  intros Hu Hraise. split.
  - now apply update_data_store_link_failure.
  - apply contains_suffix.
Qed.

Lemma link_failure_shows_cause_witness :
  PyStr.truthy "dados/ausente.csv" = true
  /\ update_data_store Sample.collaborators (Some "load-url-button") None 1
       "data.csv" (Some "dados/ausente.csv")
     = ([], Return (None,
          {| children := "Erro ao carregar do link: [Errno 2] No such file or directory: 'dados/ausente.csv'";
             color := "red" |})).
Proof.
  split; [reflexivity|].
  apply (link_failure_shows_cause Sample.collaborators None 1 "data.csv"
           "dados/ausente.csv"
           {| exn_class := "FileNotFoundError";
              exn_text := "[Errno 2] No such file or directory: 'dados/ausente.csv'" |});
    reflexivity.
Defined.

(** C4: after an ingestion attempt that fails for an unsupported type, a
    reader error or a link error, the store holds [None], whatever it held
    before. *)
Theorem failed_ingestion_clears_store
    (C : Collaborators) (s : session) (triggered_id contents : option string)
    (n_clicks : Z) (filename : string) (url : option string)
    (kind : failure_kind) :
  ingestion_fails C triggered_id contents filename url kind ->
  stored_data
    (fire_update_data_store C s triggered_id contents n_clicks filename url)
  = None.
Proof.
  intros Hfail. unfold fire_update_data_store.
  inversion Hfail as [c d f u Hup Hcsv Hxls
                     | c d f u e Hup Hcsv Hraise
                     | c d f u e Hup Hcsv Hxls Hraise
                     | c f u e Hu Hraise]; subst.
  - rewrite update_data_store_upload,
      (parse_contents_unsupported C c d filename Hup Hcsv Hxls).
    reflexivity.
  - rewrite update_data_store_upload,
      (parse_contents_csv C c d filename Hup Hcsv), Hraise.
    reflexivity.
  - rewrite update_data_store_upload,
      (parse_contents_xls C c d filename Hup Hcsv Hxls), Hraise.
    reflexivity.
  - rewrite (update_data_store_link_failure C contents n_clicks filename u e Hu Hraise).
    reflexivity.
Qed.

Lemma failed_ingestion_clears_store_witness :
  ingestion_fails Sample.collaborators (Some "upload-data")
    (Some Sample.csv_contents) "notas.txt" None UnsupportedFormat
  /\ stored_data
       (fire_update_data_store Sample.collaborators
          {| stored_data := Some Sample.snapshot_xy; upload_status := None |}
          (Some "upload-data") (Some Sample.csv_contents) 0 "notas.txt" None)
     = None.
Proof.
  assert (Hfail : ingestion_fails Sample.collaborators (Some "upload-data")
                    (Some Sample.csv_contents) "notas.txt" None UnsupportedFormat).
  { apply fails_unsupported with (decoded := Sample.csv_text).
    - exists "data:text/csv;base64", "eCx5CjEsMgozLDQK".
      split; vm_compute; reflexivity.
    - reflexivity.
    - reflexivity. }
  split; [exact Hfail|].
  exact (failed_ingestion_clears_store Sample.collaborators
           {| stored_data := Some Sample.snapshot_xy; upload_status := None |}
           (Some "upload-data") (Some Sample.csv_contents) 0 "notas.txt" None
           UnsupportedFormat Hfail).
Defined.

(** ** Schema projection *)

(** C7: with no snapshot, [update_dropdowns_and_visibility] hides the
    visualization area and answers empty option lists and [None] for both
    selections. *)
Theorem dropdowns_without_snapshot (C : Collaborators) :
  update_dropdowns_and_visibility C None
  = ([], Return ({| display := "none" |}, [], [], None, None)).
Proof. reflexivity. Qed.

(** C8: with a snapshot that reads back as [df], the area is shown, both
    option lists carry the column names of [df] in their order, the X
    selection is the first column (or [None] when there is none) and the Y
    selection is the second (or [None] when there are fewer than two). *)
Theorem dropdowns_with_snapshot
    (C : Collaborators) (json : string) (df : DataFrame) :
  read_json_split C json = Return df ->
  let options :=
    List.map (fun i => {| opt_label := i; opt_value := i |}) (columns df) in
  update_dropdowns_and_visibility C (Some json)
  = ([], Return ({| display := "block" |}, options, options,
                 match columns df with
                 | first :: _ => Some first
                 | [] => None
                 end,
                 match columns df with
                 | _ :: second :: _ => Some second
                 | _ => None
                 end))
  /\ List.map opt_value options = columns df
  /\ List.map opt_label options = columns df.
Proof.
  intros Hread options. unfold update_dropdowns_and_visibility.
  rewrite Hread. subst options. cbn [Py.bind Py.lift Py.ret app].
  split; [|split].
  - destruct (columns df) as [|first [|second others]]; reflexivity.
  - rewrite List.map_map. apply List.map_id.
  - rewrite List.map_map. apply List.map_id.
Qed.

Lemma dropdowns_with_snapshot_witness :
  read_json_split Sample.collaborators Sample.snapshot_xy = Return Sample.frame_xy
  /\ update_dropdowns_and_visibility Sample.collaborators (Some Sample.snapshot_xy)
     = ([], Return ({| display := "block" |},
                    [ {| opt_label := LStr "x"; opt_value := LStr "x" |};
                      {| opt_label := LStr "y"; opt_value := LStr "y" |} ],
                    [ {| opt_label := LStr "x"; opt_value := LStr "x" |};
                      {| opt_label := LStr "y"; opt_value := LStr "y" |} ],
                    Some (LStr "x"), Some (LStr "y"))).
Proof.
  assert (Hread : read_json_split Sample.collaborators Sample.snapshot_xy
                  = Return Sample.frame_xy) by (vm_compute; reflexivity).
  split; [exact Hread|].
  exact (proj1 (dropdowns_with_snapshot Sample.collaborators
                  Sample.snapshot_xy Sample.frame_xy Hread)).
Defined.

Example dropdowns_one_column :
  Sample.to_json_split Sample.frame_a = Return Sample.snapshot_a
  /\ update_dropdowns_and_visibility Sample.collaborators (Some Sample.snapshot_a)
     = ([], Return ({| display := "block" |},
                    [ {| opt_label := LStr "a"; opt_value := LStr "a" |} ],
                    [ {| opt_label := LStr "a"; opt_value := LStr "a" |} ],
                    Some (LStr "a"), None)).
Proof. split; vm_compute; reflexivity. Qed.

(** ** Chart dispatch *)

Lemma none_or_empty_not_truthy (v : option label) :
  none_or_empty v -> truthy v = false.
Proof. intros [-> | ->]; reflexivity. Qed.

(** C2: when there is no snapshot, or the X selection is [None] or empty, or
    the Y selection is [None] or empty, [update_graph] answers the empty
    dict [{}] for every chart type, the histogram included. *)
Theorem guard_returns_empty
    (C : Collaborators) (jsonified_dataframe : option string)
    (xaxis_col yaxis_col chart_type : option label) :
  jsonified_dataframe = None \/ none_or_empty xaxis_col \/ none_or_empty yaxis_col ->
  update_graph C jsonified_dataframe xaxis_col yaxis_col chart_type
  = ([], Return FigDict).
Proof.
  intros [-> | Hsel]; [reflexivity|].
  unfold update_graph. destruct jsonified_dataframe as [json|]; [|reflexivity].
  destruct Hsel as [Hx | Hy].
  - rewrite (none_or_empty_not_truthy _ Hx). reflexivity.
  - rewrite (none_or_empty_not_truthy _ Hy), Bool.orb_true_r. reflexivity.
Qed.

Lemma guard_returns_empty_witness :
  none_or_empty None
  /\ update_graph Sample.collaborators (Some Sample.snapshot_xy)
       (Some (LStr "x")) None (Some (LStr "histogram"))
     = ([], Return FigDict).
Proof.
  split; [left; reflexivity|].
  apply (guard_returns_empty Sample.collaborators (Some Sample.snapshot_xy)
           (Some (LStr "x")) None (Some (LStr "histogram"))).
  right. right. left. reflexivity.
Defined.

(** C3, what the code does: past the guard, with a chart type that is none of
    the five tags, [fig] is bound to the dict [{}] and the call of
    [update_layout] on it raises [AttributeError]; nothing is returned. *)
Theorem unknown_chart_type_raises
    (C : Collaborators) (json : string) (df : DataFrame)
    (xaxis_col yaxis_col chart_type : option label) :
  read_json_split C json = Return df ->
  truthy xaxis_col = true ->
  truthy yaxis_col = true ->
  known_chart_type chart_type = false ->
  update_graph C (Some json) xaxis_col yaxis_col chart_type
  = ([], Raise {| exn_class := "AttributeError";
                  exn_text := "'dict' object has no attribute 'update_layout'" |}).
Proof.
  intros Hread Hx Hy Hunknown. unfold update_graph.
  rewrite Hx, Hy, Hread. cbn [negb orb Py.lift Py.bind].
  unfold known_chart_type in Hunknown.
  repeat (apply Bool.orb_false_iff in Hunknown;
          destruct Hunknown as [Hunknown ?Hnot]).
  rewrite Hunknown, Hnot, Hnot0, Hnot1, Hnot2. reflexivity.
Qed.

Lemma unknown_chart_type_raises_witness :
  read_json_split Sample.collaborators Sample.snapshot_xy = Return Sample.frame_xy
  /\ known_chart_type None = false
  /\ update_graph Sample.collaborators (Some Sample.snapshot_xy)
       (Some (LStr "x")) (Some (LStr "y")) None
     = ([], Raise dict_has_no_update_layout).
Proof.
  assert (Hread : read_json_split Sample.collaborators Sample.snapshot_xy
                  = Return Sample.frame_xy) by (vm_compute; reflexivity).
  split; [exact Hread|].
  split; [reflexivity|].
  apply (unknown_chart_type_raises Sample.collaborators Sample.snapshot_xy
           Sample.frame_xy (Some (LStr "x")) (Some (LStr "y")) None Hread);
    reflexivity.
Defined.

Example area_chart_raises :
  update_graph Sample.collaborators (Some Sample.snapshot_xy)
    (Some (LStr "x")) (Some (LStr "y")) (Some (LStr "area"))
  = ([], Raise dict_has_no_update_layout).
Proof. vm_compute. reflexivity. Qed.

(** ** Further properties of the text operations *)

Lemma split_on_not_nil (sep : ascii) (s : string) : PyStr.split_on sep s <> [].
Proof.
  destruct s as [|c rest]; simpl; [discriminate|].
  destruct (Ascii.eqb c sep); [discriminate|].
  destruct (PyStr.split_on sep rest); discriminate.
Qed.

Lemma split_on_length (sep : ascii) (s : string) :
  List.length (PyStr.split_on sep s) = S (count_char sep s).
Proof.
  induction s as [|c rest IH]; simpl; [reflexivity|].
  destruct (Ascii.eqb c sep); simpl.
  - now rewrite IH.
  - destruct (PyStr.split_on sep rest) as [|piece pieces] eqn:Hsplit.
    + now elim (split_on_not_nil sep rest).
    + exact IH.
Qed.

Lemma concat_cons_char (sep : string) (c : ascii) (piece : string)
    (pieces : list string) :
  String.concat sep (String c piece :: pieces)
  = String c (String.concat sep (piece :: pieces)).
Proof. destruct pieces; reflexivity. Qed.

Lemma split_on_join (sep : ascii) (s : string) :
  String.concat (String sep EmptyString) (PyStr.split_on sep s) = s.
Proof.
  induction s as [|c rest IH]; simpl; [reflexivity|].
  destruct (Ascii.eqb c sep) eqn:Hc.
  - apply Ascii.eqb_eq in Hc. subst c.
    destruct (PyStr.split_on sep rest) as [|piece pieces] eqn:Hsplit.
    + now elim (split_on_not_nil sep rest).
    + cbn [String.concat append]. now rewrite <- IH.
  - destruct (PyStr.split_on sep rest) as [|piece pieces] eqn:Hsplit.
    + now elim (split_on_not_nil sep rest).
    + rewrite concat_cons_char. now rewrite IH.
Qed.

Lemma split_on_pieces_clean (sep : ascii) (s : string) :
  List.Forall (fun piece => count_char sep piece = 0) (PyStr.split_on sep s).
Proof.
  induction s as [|c rest IH]; simpl.
  - constructor; [reflexivity | constructor].
  - destruct (Ascii.eqb c sep) eqn:Hc.
    + constructor; [reflexivity | exact IH].
    + destruct (PyStr.split_on sep rest) as [|piece pieces].
      * constructor; [simpl; now rewrite Hc | constructor].
      * inversion IH as [|? ? Hpiece Hpieces]; subst.
        constructor; [simpl; now rewrite Hc | exact Hpieces].
Qed.

(** X1: splitting loses nothing and cuts at every separator: joining the
    pieces with the separator gives the text back, there is one piece more
    than there are separators, and no piece contains the separator. *)
Theorem split_on_spec (sep : ascii) (s : string) :
  String.concat (String sep EmptyString) (PyStr.split_on sep s) = s
  /\ List.length (PyStr.split_on sep s) = S (count_char sep s)
  /\ List.Forall (fun piece => count_char sep piece = 0) (PyStr.split_on sep s).
Proof.
  split; [apply split_on_join|].
  split; [apply split_on_length | apply split_on_pieces_clean].
Qed.

Lemma prefix_splits (needle haystack : string) :
  String.prefix needle haystack = true ->
  exists after, haystack = (needle ++ after)%string.
Proof.
  revert haystack. induction needle as [|a needle IH]; intros haystack Hp.
  - exists haystack. reflexivity.
  - destruct haystack as [|b haystack]; simpl in Hp; [discriminate|].
    destruct (ascii_dec a b) as [->|_]; [|discriminate].
    destruct (IH haystack Hp) as [after ->].
    exists after. reflexivity.
Qed.

Lemma contains_splits (needle haystack : string) :
  PyStr.contains needle haystack = true ->
  exists before after, haystack = (before ++ needle ++ after)%string.
Proof.
  induction haystack as [|c haystack IH]; cbn [PyStr.contains]; intros Hc.
  - destruct (String.prefix needle EmptyString) eqn:Hp; [|discriminate].
    destruct (prefix_splits _ _ Hp) as [after Hafter].
    exists EmptyString, after. exact Hafter.
  - destruct (String.prefix needle (String c haystack)) eqn:Hp.
    + destruct (prefix_splits _ _ Hp) as [after Hafter].
      exists EmptyString, after. exact Hafter.
    + destruct (IH Hc) as (before & after & ->).
      exists (String c before), after. reflexivity.
Qed.

(** X2: [needle in haystack] is the substring relation: the test succeeds
    exactly when the haystack is some text, then the needle, then some
    text. *)
Theorem contains_iff_infix (needle haystack : string) :
  PyStr.contains needle haystack = true
  <-> exists before after, haystack = (before ++ needle ++ after)%string.
Proof.
  split.
  - apply contains_splits.
  - intros (before & after & ->). apply contains_infix.
Qed.

(** ** [parse_contents]: what escapes the [try], what is printed *)

(** X3: a [contents] that has not exactly one comma makes [parse_contents]
    raise [ValueError] at the unpacking, before anything is decoded or
    printed and whatever the filename; the exception leaves
    [update_data_store] too. *)
Theorem contents_without_one_comma_raises
    (C : Collaborators) (contents filename : string) (n_clicks : Z)
    (url : option string) :
  count_char ","%char contents <> 1 ->
  let e := unpack_error (PyStr.split_on ","%char contents) in
  exn_class e = "ValueError"
  /\ parse_contents C contents filename = ([], Raise e)
  /\ update_data_store C (Some "upload-data") (Some contents) n_clicks
       filename url = ([], Raise e).
Proof.
  intros Hcount e. subst e.
  assert (Hlen : List.length (PyStr.split_on ","%char contents) <> 2)
    by (rewrite split_on_length; lia).
  assert (Hparse : parse_contents C contents filename
                   = ([], Raise (unpack_error (PyStr.split_on ","%char contents)))).
  { unfold parse_contents.
    destruct (PyStr.split_on ","%char contents) as [|a [|b [|c l]]];
      try reflexivity.
    now elim Hlen. }
  split; [reflexivity|]. split; [exact Hparse|].
  rewrite update_data_store_upload, Hparse. reflexivity.
Qed.

Lemma contents_without_one_comma_raises_witness :
  count_char ","%char "x,y,z" <> 1
  /\ parse_contents Sample.collaborators "x,y,z" "data.csv"
     = ([], Raise {| exn_class := "ValueError";
                     exn_text := "too many values to unpack (expected 2)" |}).
Proof.
  assert (Hcount : count_char ","%char "x,y,z" <> 1) by (simpl; lia).
  split; [exact Hcount|].
  exact (proj1 (proj2 (contents_without_one_comma_raises Sample.collaborators
                         "x,y,z" "data.csv" 0 None Hcount))).
Defined.

(** X4: when the payload does not decode, the exception of [b64decode] is
    raised out of [parse_contents] and of [update_data_store]: the decoding
    stands before the [try], so neither the generic message nor the
    unsupported-type message is produced, and nothing is printed. *)
Theorem undecodable_payload_raises
    (C : Collaborators) (contents content_type payload filename : string)
    (n_clicks : Z) (url : option string) (e : exn) :
  PyStr.split_on ","%char contents = [content_type; payload] ->
  b64decode C payload = Raise e ->
  parse_contents C contents filename = ([], Raise e)
  /\ update_data_store C (Some "upload-data") (Some contents) n_clicks
       filename url = ([], Raise e).
Proof.
  intros Hsplit Hdec.
  assert (Hparse : parse_contents C contents filename = ([], Raise e)).
  { unfold parse_contents. rewrite Hsplit, Hdec. reflexivity. }
  split; [exact Hparse|].
  rewrite update_data_store_upload, Hparse. reflexivity.
Qed.

Lemma undecodable_payload_raises_witness :
  PyStr.split_on ","%char "data:text/csv;base64,abc" = ["data:text/csv;base64"; "abc"]
  /\ b64decode Sample.collaborators "abc" = Raise Sample.incorrect_padding
  /\ parse_contents Sample.collaborators "data:text/csv;base64,abc" "notas.txt"
     = ([], Raise Sample.incorrect_padding).
Proof.
  assert (Hsplit : PyStr.split_on ","%char "data:text/csv;base64,abc"
                   = ["data:text/csv;base64"; "abc"]) by reflexivity.
  assert (Hdec : b64decode Sample.collaborators "abc"
                 = Raise Sample.incorrect_padding) by reflexivity.
  split; [exact Hsplit|]. split; [exact Hdec|].
  exact (proj1 (undecodable_payload_raises Sample.collaborators
                  "data:text/csv;base64,abc" "data:text/csv;base64" "abc"
                  "notas.txt" 0 None Sample.incorrect_padding Hsplit Hdec)).
Defined.

(** X5: [parse_contents] prints at most one line, and only together with the
    generic error answer: every run either prints nothing, or prints the
    text of one exception and returns no frame with the fixed error line. *)
Theorem parse_contents_prints_only_on_reader_error
    (C : Collaborators) (contents filename : string) :
  Py.stdout (parse_contents C contents filename) = []
  \/ exists e,
       parse_contents C contents filename
       = ([exn_text e], Return (None, processing_error_message)).
Proof.
  unfold parse_contents.
  destruct (PyStr.split_on ","%char contents) as [|a [|b [|c l]]];
    try (left; reflexivity).
  destruct (b64decode C b) as [decoded|e]; [|left; reflexivity].
  cbn [Py.lift Py.bind].
  destruct (PyStr.contains "csv" filename).
  - destruct (decode_utf8 C decoded) as [text|e]; cbn.
    + destruct (read_csv_text C text) as [df|e]; cbn.
      * left; reflexivity.
      * right; exists e; reflexivity.
    + right; exists e; reflexivity.
  - destruct (PyStr.contains "xls" filename).
    + destruct (read_excel C decoded) as [df|e]; cbn.
      * left; reflexivity.
      * right; exists e; reflexivity.
    + left; reflexivity.
Qed.

(** X6: what [parse_contents] returns is one of three answers.  A frame comes
    only with the success line naming the file, from the reader the filename
    selects; no frame comes with the unsupported-type line (the filename has
    neither "csv" nor "xls") or with the fixed error line. *)
Theorem parse_contents_answers
    (C : Collaborators) (contents filename : string) (out : list string)
    (frame : option DataFrame) (message : string) :
  parse_contents C contents filename = (out, Return (frame, message)) ->
  match frame with
  | Some df =>
      out = [] /\ message = success_message filename
      /\ exists decoded,
           raw_upload C contents decoded
           /\ ((PyStr.contains "csv" filename = true
                /\ parse_csv C decoded = Return df)
               \/ (PyStr.contains "csv" filename = false
                   /\ PyStr.contains "xls" filename = true
                   /\ read_excel C decoded = Return df))
  | None =>
      (out = [] /\ message = unsupported_message filename
       /\ PyStr.contains "csv" filename = false
       /\ PyStr.contains "xls" filename = false)
      \/ message = processing_error_message
  end.
Proof.
  unfold parse_contents.
  destruct (PyStr.split_on ","%char contents) as [|a [|b [|c l]]] eqn:Hsplit;
    try discriminate.
  destruct (b64decode C b) as [decoded|e] eqn:Hdec; [|discriminate].
  assert (Hup : raw_upload C contents decoded) by (exists a, b; now split).
  cbn [Py.lift Py.bind].
  destruct (PyStr.contains "csv" filename) eqn:Hcsv.
  - destruct (decode_utf8 C decoded) as [text|e] eqn:Htext; cbn.
    + destruct (read_csv_text C text) as [df|e] eqn:Hread; cbn;
        intros H; inversion H; subst.
      * repeat split. exists decoded. split; [exact Hup|].
        left. split; [reflexivity|]. unfold parse_csv. now rewrite Htext.
      * right; reflexivity.
    + intros H; inversion H; subst. right; reflexivity.
  - destruct (PyStr.contains "xls" filename) eqn:Hxls.
    + destruct (read_excel C decoded) as [df|e] eqn:Hread; cbn;
        intros H; inversion H; subst.
      * repeat split. exists decoded. split; [exact Hup|].
        right. now repeat split.
      * right; reflexivity.
    + cbn. intros H; inversion H; subst. left. now repeat split.
Qed.

Lemma parse_contents_answers_witness :
  parse_contents Sample.collaborators Sample.csv_contents "data.csv"
  = ([], Return (Some Sample.frame_xy, success_message "data.csv"))
  /\ exists decoded,
       raw_upload Sample.collaborators Sample.csv_contents decoded
       /\ ((PyStr.contains "csv" "data.csv" = true
            /\ parse_csv Sample.collaborators decoded = Return Sample.frame_xy)
           \/ (PyStr.contains "csv" "data.csv" = false
               /\ PyStr.contains "xls" "data.csv" = true
               /\ read_excel Sample.collaborators decoded = Return Sample.frame_xy)).
Proof.
  assert (Hrun : parse_contents Sample.collaborators Sample.csv_contents "data.csv"
                 = ([], Return (Some Sample.frame_xy, success_message "data.csv")))
    by (vm_compute; reflexivity).
  split; [exact Hrun|].
  exact (proj2 (proj2 (parse_contents_answers Sample.collaborators
                         Sample.csv_contents "data.csv" []
                         (Some Sample.frame_xy) (success_message "data.csv")
                         Hrun))).
Defined.

(** ** [update_data_store]: its branches and its two outputs *)

Ltac split_bit b := destruct b; try reflexivity; try discriminate.

Ltac next_char s :=
  let a := fresh "a" in
  let rest := fresh "rest" in
  destruct s as [|a rest]; [try reflexivity; try discriminate|];
  destruct a as [b0 b1 b2 b3 b4 b5 b6 b7];
  split_bit b0; split_bit b1; split_bit b2; split_bit b3;
  split_bit b4; split_bit b5; split_bit b6; split_bit b7.

Ltac walk_trigger :=
  repeat match goal with
         | |- context [match ?s with EmptyString => _ | String _ _ => _ end] =>
             is_var s; next_char s
         end.

Lemma update_data_store_other_trigger (C : Collaborators) (id : string)
    (contents : option string) (n_clicks : Z) (filename : string)
    (url : option string) :
  String.eqb id "upload-data" = false ->
  String.eqb id "load-url-button" = false ->
  update_data_store C (Some id) contents n_clicks filename url
  = Py.bind nothing_loaded (store_outputs C).
Proof.
  intros Hupload Hlink. unfold update_data_store.
  destruct contents as [c|]; destruct url as [u|]; walk_trigger.
Qed.

(** The [if]/[elif] of lines 119-126, with the tests as booleans. *)
Lemma update_data_store_branches (C : Collaborators)
    (triggered_id contents : option string) (n_clicks : Z) (filename : string)
    (url : option string) :
  update_data_store C triggered_id contents n_clicks filename url
  = Py.bind
      (match (if triggered_by triggered_id "upload-data" then contents else None) with
       | Some c => parse_contents C c filename
       | None =>
           match (if triggered_by triggered_id "load-url-button" then url else None) with
           | Some u => if PyStr.truthy u then load_link C u else nothing_loaded
           | None => nothing_loaded
           end
       end)
      (store_outputs C).
Proof.
  destruct triggered_id as [id|]; cbn [triggered_by].
  - destruct (String.eqb id "upload-data") eqn:Hupload.
    + apply String.eqb_eq in Hupload. subst id.
      destruct contents as [c|]; [reflexivity|].
      destruct url as [u|]; reflexivity.
    + destruct (String.eqb id "load-url-button") eqn:Hlink.
      * apply String.eqb_eq in Hlink. subst id.
        destruct contents as [c|]; destruct url as [u|]; reflexivity.
      * rewrite (update_data_store_other_trigger C id contents n_clicks
                   filename url Hupload Hlink).
        destruct url as [u|]; reflexivity.
  - destruct contents as [c|]; destruct url as [u|]; reflexivity.
Qed.

Lemma store_outputs_cases (C : Collaborators)
    (loaded : option DataFrame * string) (out : list string)
    (store : option string) (status : html_P) :
  store_outputs C loaded = (out, Return (store, status)) ->
  out = [] /\ children status = snd loaded
  /\ ((store = None /\ fst loaded = None /\ color status = "red")
      \/ (exists df json,
            fst loaded = Some df /\ to_json_split C df = Return json
            /\ store = Some json /\ color status = "green")).
Proof.
  destruct loaded as [[df|] message]; cbn.
  - destruct (to_json_split C df) as [json|e] eqn:Hjson; cbn;
      intros H; inversion H; subst.
    repeat split. right. exists df, json. now repeat split.
  - intros H; inversion H; subst. repeat split. left. now repeat split.
Qed.

Lemma bind_returns {A B} (m : Py.t A) (k : A -> Py.t B) (out : list string)
    (b : B) :
  Py.bind m k = (out, Return b) ->
  exists out1 a out2,
    m = (out1, Return a) /\ k a = (out2, Return b) /\ out = out1 ++ out2.
Proof.
  destruct m as [out1 [a|e]]; cbn; [|discriminate].
  destruct (k a) as [out2 r] eqn:Hk. intros H; inversion H; subst.
  exists out1, a, out2. now repeat split.
Qed.

Lemma update_data_store_loaded
    (C : Collaborators) (triggered_id contents : option string)
    (n_clicks : Z) (filename : string) (url : option string)
    (df : DataFrame) (message : string) :
  ingestion_loads C triggered_id contents filename url df message ->
  update_data_store C triggered_id contents n_clicks filename url
  = ([], match to_json_split C df with
         | Return json =>
             Return (Some json, {| children := message; color := "green" |})
         | Raise e => Raise e
         end).
Proof.
  intros Hloads.
  inversion Hloads as [c d f u df' Hup Hcsv Hread
                      | c d f u df' Hup Hcsv Hxls Hread
                      | c f u df' Hu Hread]; subst.
  - rewrite update_data_store_upload,
      (parse_contents_csv C c d filename Hup Hcsv), Hread.
    cbn. destruct (to_json_split C df); reflexivity.
  - rewrite update_data_store_upload,
      (parse_contents_xls C c d filename Hup Hcsv Hxls), Hread.
    cbn. destruct (to_json_split C df); reflexivity.
  - rewrite update_data_store_branches. cbn [triggered_by String.eqb Ascii.eqb Bool.eqb].
    rewrite Hu. unfold load_link. rewrite Hread.
    cbn. destruct (to_json_split C df); reflexivity.
Qed.

(** X7: an ingestion that loads a frame stores the snapshot [to_json] makes
    of it and shows the loader's line in green; when [to_json] raises, the
    callback raises instead.  Nothing is printed. *)
Theorem loaded_frame_is_stored
    (C : Collaborators) (triggered_id contents : option string)
    (n_clicks : Z) (filename : string) (url : option string)
    (df : DataFrame) (message : string) :
  ingestion_loads C triggered_id contents filename url df message ->
  update_data_store C triggered_id contents n_clicks filename url
  = ([], match to_json_split C df with
         | Return json =>
             Return (Some json, {| children := message; color := "green" |})
         | Raise e => Raise e
         end).
Proof. apply update_data_store_loaded. Qed.

Lemma loaded_frame_is_stored_witness :
  ingestion_loads Sample.collaborators (Some "upload-data")
    (Some Sample.csv_contents) "data.csv" None Sample.frame_xy
    (success_message "data.csv")
  /\ update_data_store Sample.collaborators (Some "upload-data")
       (Some Sample.csv_contents) 0 "data.csv" None
     = ([], match to_json_split Sample.collaborators Sample.frame_xy with
            | Return json =>
                Return (Some json, {| children := success_message "data.csv";
                                      color := "green" |})
            | Raise e => Raise e
            end).
Proof.
  assert (Hloads : ingestion_loads Sample.collaborators (Some "upload-data")
                     (Some Sample.csv_contents) "data.csv" None Sample.frame_xy
                     (success_message "data.csv")).
  { apply loads_csv with (decoded := Sample.csv_text).
    - exists "data:text/csv;base64", "eCx5CjEsMgozLDQK".
      split; vm_compute; reflexivity.
    - reflexivity.
    - vm_compute. reflexivity. }
  split; [exact Hloads|].
  exact (loaded_frame_is_stored Sample.collaborators (Some "upload-data")
           (Some Sample.csv_contents) 0 "data.csv" None Sample.frame_xy
           (success_message "data.csv") Hloads).
Defined.

(** X8: the colour of the status line tells what went to the store.  Whenever
    [update_data_store] returns, either the store output is [None] and the
    line is red, or the store output is a snapshot that [to_json] made and the
    line is green; no other colour and no other pairing occurs. *)
Theorem status_colour_matches_store
    (C : Collaborators) (triggered_id contents : option string)
    (n_clicks : Z) (filename : string) (url : option string)
    (out : list string) (store : option string) (status : html_P) :
  update_data_store C triggered_id contents n_clicks filename url
  = (out, Return (store, status)) ->
  (store = None /\ color status = "red")
  \/ (exists df json,
        to_json_split C df = Return json
        /\ store = Some json /\ color status = "green").
Proof.
  rewrite update_data_store_branches. intros Hrun.
  apply bind_returns in Hrun.
  destruct Hrun as (out1 & loaded & out2 & _ & Houtputs & _).
  apply store_outputs_cases in Houtputs.
  destruct Houtputs as (_ & _ & [(Hstore & _ & Hcolor) | (df & json & _ & Hjson & Hstore & Hcolor)]).
  - left. now split.
  - right. exists df, json. now repeat split.
Qed.

Lemma status_colour_matches_store_witness :
  update_data_store Sample.collaborators (Some "upload-data")
    (Some Sample.csv_contents) 0 "notas.txt" None
  = ([], Return (None, {| children := unsupported_message "notas.txt";
                          color := "red" |}))
  /\ ((@None string = None /\ "red" = "red")
      \/ (exists df json,
            to_json_split Sample.collaborators df = Return json
            /\ @None string = Some json /\ "red" = "green")).
Proof.
  assert (Hrun : update_data_store Sample.collaborators (Some "upload-data")
                   (Some Sample.csv_contents) 0 "notas.txt" None
                 = ([], Return (None, {| children := unsupported_message "notas.txt";
                                         color := "red" |})))
    by (vm_compute; reflexivity).
  split; [exact Hrun|].
  exact (status_colour_matches_store Sample.collaborators (Some "upload-data")
           (Some Sample.csv_contents) 0 "notas.txt" None [] None
           {| children := unsupported_message "notas.txt"; color := "red" |}
           Hrun).
Defined.

(** X9: when the callback fires and there is nothing to load (the upload
    fired with no contents, the button was pressed with the link field empty
    or unset, or another trigger), it answers [None] for the store and an
    empty red status line: a dataset loaded before is dropped. *)
Theorem nothing_to_load_clears_store
    (C : Collaborators) (s : session) (triggered_id contents : option string)
    (n_clicks : Z) (filename : string) (url : option string) :
  triggered_by triggered_id "upload-data" = false \/ contents = None ->
  triggered_by triggered_id "load-url-button" = false
  \/ url = None \/ url = Some EmptyString ->
  update_data_store C triggered_id contents n_clicks filename url
  = ([], Return (None, {| children := EmptyString; color := "red" |}))
  /\ stored_data
       (fire_update_data_store C s triggered_id contents n_clicks filename url)
     = None.
Proof.
  intros Hupload Hlink.
  assert (Hrun : update_data_store C triggered_id contents n_clicks filename url
                 = ([], Return (None, {| children := EmptyString; color := "red" |}))).
  { rewrite update_data_store_branches.
    replace (if triggered_by triggered_id "upload-data" then contents else None)
      with (@None string)
      by (destruct Hupload as [-> | ->];
          [reflexivity | now destruct (triggered_by triggered_id "upload-data")]).
    destruct Hlink as [-> | [-> | ->]]; try reflexivity;
      now destruct (triggered_by triggered_id "load-url-button"). }
  split; [exact Hrun|].
  unfold fire_update_data_store. rewrite Hrun. reflexivity.
Qed.

Lemma nothing_to_load_clears_store_witness :
  (triggered_by (Some "load-url-button") "upload-data" = false
   \/ Some Sample.csv_contents = None)
  /\ stored_data
       (fire_update_data_store Sample.collaborators
          {| stored_data := Some Sample.snapshot_xy; upload_status := None |}
          (Some "load-url-button") (Some Sample.csv_contents) 1 "data.csv"
          (Some EmptyString))
     = None.
Proof.
  assert (Hupload : triggered_by (Some "load-url-button") "upload-data" = false
                    \/ Some Sample.csv_contents = None) by (left; reflexivity).
  split; [exact Hupload|].
  refine (proj2 (nothing_to_load_clears_store Sample.collaborators
                   {| stored_data := Some Sample.snapshot_xy; upload_status := None |}
                   (Some "load-url-button") (Some Sample.csv_contents) 1
                   "data.csv" (Some EmptyString) Hupload _)).
  right. right. reflexivity.
Defined.

(** X10: each branch reads only its own inputs.  When the upload did not
    trigger the call, the outputs do not depend on the pending upload
    (contents, filename); when it did and contents are present, they do not
    depend on the link field; and they never depend on [n_clicks]. *)
Theorem branches_read_their_own_inputs
    (C : Collaborators) (triggered_id : option string) :
  (triggered_by triggered_id "upload-data" = false ->
   forall contents contents' n_clicks n_clicks' filename filename' url,
     update_data_store C triggered_id contents n_clicks filename url
     = update_data_store C triggered_id contents' n_clicks' filename' url)
  /\ (triggered_by triggered_id "upload-data" = true ->
      forall contents n_clicks n_clicks' filename url url',
        update_data_store C triggered_id (Some contents) n_clicks filename url
        = update_data_store C triggered_id (Some contents) n_clicks' filename url').
Proof.
  split; intros Htrigger; intros; rewrite !update_data_store_branches, Htrigger;
    reflexivity.
Qed.

Lemma branches_read_their_own_inputs_witness :
  triggered_by (Some "load-url-button") "upload-data" = false
  /\ update_data_store Sample.collaborators (Some "load-url-button")
       (Some Sample.csv_contents) 1 "data.csv" (Some "dados/ausente.csv")
     = update_data_store Sample.collaborators (Some "load-url-button")
         None 2 "outro.xls" (Some "dados/ausente.csv").
Proof.
  split; [reflexivity|].
  apply (proj1 (branches_read_their_own_inputs Sample.collaborators
                  (Some "load-url-button"))).
  reflexivity.
Defined.

(** ** [update_graph]: the guard is exact, and what comes back past it *)

Ltac run_dispatch H :=
  repeat match type of H with
         | context [if is_str ?c ?t then _ else _] =>
             destruct (is_str c t) eqn:?
         | context [Py.lift ?r] => destruct r eqn:?
         | context [match ?r with Return _ => _ | Raise _ => _ end] =>
             destruct r eqn:?
         end.

Lemma update_graph_past_guard
    (C : Collaborators) (json : string)
    (xaxis_col yaxis_col chart_type : option label)
    (out : list string) (value : fig_value) :
  truthy xaxis_col = true ->
  truthy yaxis_col = true ->
  update_graph C (Some json) xaxis_col yaxis_col chart_type
  = (out, Return value) ->
  out = [] /\ known_chart_type chart_type = true
  /\ (exists df, read_json_split C json = Return df)
  /\ exists f, value = Fig f /\ transition_duration f = Some 500%Z.
Proof.
  intros Hx Hy Hrun. unfold update_graph in Hrun.
  rewrite Hx, Hy in Hrun. cbn [negb orb] in Hrun.
  unfold known_chart_type.
  destruct (read_json_split C json) as [df|e]; [|discriminate Hrun].
  cbn [Py.lift Py.bind] in Hrun.
  run_dispatch Hrun; cbn in Hrun; try discriminate Hrun;
    inversion Hrun; subst; cbn;
    (split; [reflexivity|]); (split; [reflexivity|]);
    (split; [now exists df|]); eexists; split; reflexivity.
Qed.

(** X11: [update_graph] returns the empty dict [{}] exactly when the guard
    holds: there is no snapshot, or a selection is falsy ([None], the empty
    text, or the number 0 as a column label).  Past the guard it never
    returns [{}]. *)
Theorem empty_chart_iff_guard
    (C : Collaborators) (jsonified_dataframe : option string)
    (xaxis_col yaxis_col chart_type : option label) :
  (exists out,
     update_graph C jsonified_dataframe xaxis_col yaxis_col chart_type
     = (out, Return FigDict))
  <-> jsonified_dataframe = None
      \/ truthy xaxis_col = false \/ truthy yaxis_col = false.
Proof.
  split.
  - intros [out Hrun].
    destruct jsonified_dataframe as [json|]; [|now left].
    destruct (truthy xaxis_col) eqn:Hx; [|now right; left].
    destruct (truthy yaxis_col) eqn:Hy; [|now right; right].
    destruct (update_graph_past_guard C json xaxis_col yaxis_col chart_type
                out FigDict Hx Hy Hrun) as (_ & _ & _ & f & Hfig & _).
    discriminate Hfig.
  - intros Hguard. exists []. unfold update_graph.
    destruct jsonified_dataframe as [json|]; [|reflexivity].
    destruct Hguard as [Hnone | [Hx | Hy]]; [discriminate Hnone| |].
    + now rewrite Hx.
    + now rewrite Hy, Bool.orb_true_r.
Qed.

(** A column whose label is the number 0 gives an empty chart. *)
Example zero_label_is_guarded :
  update_graph Sample.collaborators (Some Sample.snapshot_xy)
    (Some (LInt 0)) (Some (LStr "y")) (Some (LStr "scatter"))
  = ([], Return FigDict).
Proof. reflexivity. Qed.

(** X12: whatever [update_graph] returns past the guard is a figure whose
    layout carries [transition_duration = 500], built for one of the five
    known chart types from a snapshot that was read; nothing is printed. *)
Theorem returned_figure_has_transition
    (C : Collaborators) (json : string)
    (xaxis_col yaxis_col chart_type : option label)
    (out : list string) (value : fig_value) :
  truthy xaxis_col = true ->
  truthy yaxis_col = true ->
  update_graph C (Some json) xaxis_col yaxis_col chart_type
  = (out, Return value) ->
  out = [] /\ known_chart_type chart_type = true
  /\ (exists df, read_json_split C json = Return df)
  /\ exists f, value = Fig f /\ transition_duration f = Some 500%Z.
Proof. apply update_graph_past_guard. Qed.

Lemma returned_figure_has_transition_witness :
  update_graph Sample.collaborators (Some Sample.snapshot_xy)
    (Some (LStr "x")) (Some (LStr "y")) (Some (LStr "pie"))
  = ([], Return (Fig {| fig_kind := "pie"; fig_frame := Sample.frame_xy;
                        fig_x := Some (LStr "x"); fig_y := Some (LStr "y");
                        transition_duration := Some 500%Z |}))
  /\ known_chart_type (Some (LStr "pie")) = true.
Proof.
  assert (Hrun : update_graph Sample.collaborators (Some Sample.snapshot_xy)
                   (Some (LStr "x")) (Some (LStr "y")) (Some (LStr "pie"))
                 = ([], Return (Fig {| fig_kind := "pie";
                                       fig_frame := Sample.frame_xy;
                                       fig_x := Some (LStr "x");
                                       fig_y := Some (LStr "y");
                                       transition_duration := Some 500%Z |})))
    by (vm_compute; reflexivity).
  split; [exact Hrun|].
  exact (proj1 (proj2 (returned_figure_has_transition Sample.collaborators
                         Sample.snapshot_xy (Some (LStr "x")) (Some (LStr "y"))
                         (Some (LStr "pie")) [] _ eq_refl eq_refl Hrun))).
Defined.

(** X13: the histogram does not read the Y selection: past the guard, any two
    truthy Y selections give the same outcome. *)
Theorem histogram_ignores_y
    (C : Collaborators) (jsonified_dataframe : option string)
    (xaxis_col yaxis_col yaxis_col' : option label) :
  truthy yaxis_col = true ->
  truthy yaxis_col' = true ->
  update_graph C jsonified_dataframe xaxis_col yaxis_col
    (Some (LStr "histogram"))
  = update_graph C jsonified_dataframe xaxis_col yaxis_col'
      (Some (LStr "histogram")).
Proof.
  intros Hy Hy'. unfold update_graph. rewrite Hy, Hy'. reflexivity.
Qed.

Lemma histogram_ignores_y_witness :
  truthy (Some (LStr "y")) = true
  /\ truthy (Some (LStr "ausente")) = true
  /\ update_graph Sample.collaborators (Some Sample.snapshot_xy)
       (Some (LStr "x")) (Some (LStr "y")) (Some (LStr "histogram"))
     = update_graph Sample.collaborators (Some Sample.snapshot_xy)
         (Some (LStr "x")) (Some (LStr "ausente")) (Some (LStr "histogram")).
Proof.
  split; [reflexivity|]. split; [reflexivity|].
  apply (histogram_ignores_y Sample.collaborators (Some Sample.snapshot_xy)
           (Some (LStr "x")) (Some (LStr "y")) (Some (LStr "ausente")));
    reflexivity.
Defined.

(** X14: a snapshot that [read_json] cannot read is not handled: both
    callbacks raise the reader's exception, [update_graph] once the guard is
    passed; while the guard holds, [update_graph] does not read the snapshot
    and still answers [{}]. *)
Theorem unreadable_snapshot_raises
    (C : Collaborators) (json : string) (e : exn)
    (xaxis_col yaxis_col chart_type : option label) :
  read_json_split C json = Raise e ->
  update_dropdowns_and_visibility C (Some json) = ([], Raise e)
  /\ update_graph C (Some json) xaxis_col yaxis_col chart_type
     = ([], if truthy xaxis_col && truthy yaxis_col
            then Raise e else Return FigDict).
Proof.
  intros Hread. split.
  - unfold update_dropdowns_and_visibility. now rewrite Hread.
  - unfold update_graph. rewrite Hread.
    destruct (truthy xaxis_col), (truthy yaxis_col); reflexivity.
Qed.

Lemma unreadable_snapshot_raises_witness :
  read_json_split Sample.collaborators "{"
  = Raise {| exn_class := "ValueError"; exn_text := "Expected object or value" |}
  /\ update_dropdowns_and_visibility Sample.collaborators (Some "{")
     = ([], Raise {| exn_class := "ValueError";
                     exn_text := "Expected object or value" |}).
Proof.
  assert (Hread : read_json_split Sample.collaborators "{"
                  = Raise {| exn_class := "ValueError";
                             exn_text := "Expected object or value" |})
    by (vm_compute; reflexivity).
  split; [exact Hread|].
  exact (proj1 (unreadable_snapshot_raises Sample.collaborators "{" _
                  None None None Hread)).
Defined.

(** ** [update_dropdowns_and_visibility]: invariants of what it returns *)

Lemma dropdowns_returns
    (C : Collaborators) (jsonified_dataframe : option string)
    (out : list string) (shown : style) (x_options y_options : list dropdown_option)
    (initial_x initial_y : option label) :
  update_dropdowns_and_visibility C jsonified_dataframe
  = (out, Return (shown, x_options, y_options, initial_x, initial_y)) ->
  out = []
  /\ exists cols,
       x_options = List.map (fun i => {| opt_label := i; opt_value := i |}) cols
       /\ y_options = x_options
       /\ initial_x = List.nth_error cols 0
       /\ initial_y = List.nth_error cols 1
       /\ match jsonified_dataframe with
          | None => cols = [] /\ display shown = "none"
          | Some json =>
              display shown = "block"
              /\ exists df, read_json_split C json = Return df /\ cols = columns df
          end.
Proof.
  unfold update_dropdowns_and_visibility.
  destruct jsonified_dataframe as [json|].
  - destruct (read_json_split C json) as [df|e] eqn:Hread; [|discriminate].
    cbn [Py.lift Py.bind Py.ret app]. intros H; inversion H; subst.
    split; [reflexivity|]. exists (columns df).
    split; [reflexivity|]. split; [reflexivity|].
    split; [destruct (columns df) as [|a [|b l]]; reflexivity|].
    split; [destruct (columns df) as [|a [|b l]]; reflexivity|].
    split; [reflexivity|]. now exists df.
  - intros H; inversion H; subst.
    split; [reflexivity|]. exists []. now repeat split.
Qed.

(** X15: whatever [update_dropdowns_and_visibility] returns, the two option
    lists are the same list, every option has its label equal to its value,
    and a selection that is not [None] is the value of one of the options
    offered; the selections are both [None] when the area is hidden. *)
Theorem selections_are_offered
    (C : Collaborators) (jsonified_dataframe : option string)
    (out : list string) (shown : style) (x_options y_options : list dropdown_option)
    (initial_x initial_y : option label) :
  update_dropdowns_and_visibility C jsonified_dataframe
  = (out, Return (shown, x_options, y_options, initial_x, initial_y)) ->
  x_options = y_options
  /\ List.Forall (fun o => opt_label o = opt_value o) x_options
  /\ (forall l, initial_x = Some l -> List.In l (List.map opt_value x_options))
  /\ (forall l, initial_y = Some l -> List.In l (List.map opt_value y_options))
  /\ (display shown = "none" -> initial_x = None /\ initial_y = None).
Proof.
  intros Hrun. apply dropdowns_returns in Hrun.
  destruct Hrun as (_ & cols & -> & -> & -> & -> & Hshown).
  assert (Hvalues : List.map opt_value
                      (List.map (fun i => {| opt_label := i; opt_value := i |}) cols)
                    = cols)
    by (rewrite List.map_map; apply List.map_id).
  split; [reflexivity|].
  split; [apply List.Forall_forall; intros o Ho;
          apply List.in_map_iff in Ho; destruct Ho as (i & <- & _); reflexivity|].
  rewrite Hvalues.
  split; [intros l Hl; now apply List.nth_error_In in Hl|].
  split; [intros l Hl; now apply List.nth_error_In in Hl|].
  intros Hnone. destruct jsonified_dataframe as [json|].
  - destruct Hshown as [Hblock _]. rewrite Hblock in Hnone. discriminate Hnone.
  - destruct Hshown as [-> _]. now split.
Qed.

Lemma selections_are_offered_witness :
  update_dropdowns_and_visibility Sample.collaborators (Some Sample.snapshot_a)
  = ([], Return ({| display := "block" |},
                 [ {| opt_label := LStr "a"; opt_value := LStr "a" |} ],
                 [ {| opt_label := LStr "a"; opt_value := LStr "a" |} ],
                 Some (LStr "a"), None))
  /\ (forall l, Some (LStr "a") = Some l ->
      List.In l (List.map opt_value
                   [ {| opt_label := LStr "a"; opt_value := LStr "a" |} ])).
Proof.
  assert (Hrun : update_dropdowns_and_visibility Sample.collaborators
                   (Some Sample.snapshot_a)
                 = ([], Return ({| display := "block" |},
                                [ {| opt_label := LStr "a"; opt_value := LStr "a" |} ],
                                [ {| opt_label := LStr "a"; opt_value := LStr "a" |} ],
                                Some (LStr "a"), None)))
    by (vm_compute; reflexivity).
  split; [exact Hrun|].
  exact (proj1 (proj2 (proj2 (selections_are_offered Sample.collaborators
                                (Some Sample.snapshot_a) [] _ _ _ _ _ Hrun)))).
Defined.

(** ** The callbacks together *)

(** X16: with a snapshot of at least two columns whose first two labels are
    truthy, the selections [update_dropdowns_and_visibility] sets and the
    chart type the dropdown starts with make [update_graph] call
    [px.scatter] on the first column against the second and set the
    transition on its figure. *)
Theorem initial_selections_draw_scatter
    (C : Collaborators) (json : string) (df : DataFrame)
    (first second : label) (others : list label)
    (shown : style) (x_options y_options : list dropdown_option)
    (initial_x initial_y : option label) :
  read_json_split C json = Return df ->
  columns df = first :: second :: others ->
  truthy (Some first) = true ->
  truthy (Some second) = true ->
  update_dropdowns_and_visibility C (Some json)
  = ([], Return (shown, x_options, y_options, initial_x, initial_y)) ->
  initial_x = Some first /\ initial_y = Some second
  /\ update_graph C (Some json) initial_x initial_y chart_type_initial
     = Py.bind (Py.lift (px_scatter C df (Some first) (Some second)))
         (fun f => update_layout (Fig f) 500).
Proof.
  intros Hread Hcols Hfirst Hsecond Hrun.
  apply dropdowns_returns in Hrun.
  destruct Hrun as (_ & cols & _ & _ & Hx & Hy & _ & df' & Hread' & ->).
  rewrite Hread in Hread'. inversion Hread'; subst df'.
  rewrite Hcols in Hx, Hy. cbn in Hx, Hy. subst initial_x initial_y.
  split; [reflexivity|]. split; [reflexivity|].
  unfold update_graph, chart_type_initial. rewrite Hfirst, Hsecond, Hread.
  cbn [negb orb Py.lift Py.bind is_str String.eqb Ascii.eqb Bool.eqb].
  destruct (px_scatter C df (Some first) (Some second)); reflexivity.
Qed.

Lemma initial_selections_draw_scatter_witness :
  read_json_split Sample.collaborators Sample.snapshot_xy = Return Sample.frame_xy
  /\ columns Sample.frame_xy = [LStr "x"; LStr "y"]
  /\ update_graph Sample.collaborators (Some Sample.snapshot_xy)
       (Some (LStr "x")) (Some (LStr "y")) chart_type_initial
     = Py.bind (Py.lift (px_scatter Sample.collaborators Sample.frame_xy
                           (Some (LStr "x")) (Some (LStr "y"))))
         (fun f => update_layout (Fig f) 500).
Proof.
  assert (Hread : read_json_split Sample.collaborators Sample.snapshot_xy
                  = Return Sample.frame_xy) by (vm_compute; reflexivity).
  assert (Hrun : update_dropdowns_and_visibility Sample.collaborators
                   (Some Sample.snapshot_xy)
                 = ([], Return ({| display := "block" |},
                      [ {| opt_label := LStr "x"; opt_value := LStr "x" |};
                        {| opt_label := LStr "y"; opt_value := LStr "y" |} ],
                      [ {| opt_label := LStr "x"; opt_value := LStr "x" |};
                        {| opt_label := LStr "y"; opt_value := LStr "y" |} ],
                      Some (LStr "x"), Some (LStr "y"))))
    by (vm_compute; reflexivity).
  split; [exact Hread|]. split; [reflexivity|].
  exact (proj2 (proj2 (initial_selections_draw_scatter Sample.collaborators
                         Sample.snapshot_xy Sample.frame_xy (LStr "x") (LStr "y")
                         [] _ _ _ _ _ Hread eq_refl eq_refl eq_refl Hrun))).
Defined.

(** X17: when the snapshot has fewer than two columns, or one of its first
    two labels is falsy (the empty text or the number 0), the selections that
    [update_dropdowns_and_visibility] sets make [update_graph] answer [{}]
    for every chart type, the histogram included. *)
Theorem initial_selections_may_leave_chart_empty
    (C : Collaborators) (json : string) (df : DataFrame)
    (shown : style) (x_options y_options : list dropdown_option)
    (initial_x initial_y chart_type : option label) :
  read_json_split C json = Return df ->
  truthy (List.nth_error (columns df) 0) = false
  \/ truthy (List.nth_error (columns df) 1) = false ->
  update_dropdowns_and_visibility C (Some json)
  = ([], Return (shown, x_options, y_options, initial_x, initial_y)) ->
  update_graph C (Some json) initial_x initial_y chart_type
  = ([], Return FigDict).
Proof.
  intros Hread Hfalsy Hrun.
  apply dropdowns_returns in Hrun.
  destruct Hrun as (_ & cols & _ & _ & -> & -> & _ & df' & Hread' & ->).
  rewrite Hread in Hread'. inversion Hread'; subst df'.
  unfold update_graph.
  destruct Hfalsy as [-> | ->]; [reflexivity|].
  now rewrite Bool.orb_true_r.
Qed.

Lemma initial_selections_may_leave_chart_empty_witness :
  read_json_split Sample.collaborators Sample.snapshot_a = Return Sample.frame_a
  /\ truthy (List.nth_error (columns Sample.frame_a) 1) = false
  /\ update_graph Sample.collaborators (Some Sample.snapshot_a)
       (Some (LStr "a")) None (Some (LStr "histogram"))
     = ([], Return FigDict).
Proof.
  assert (Hread : read_json_split Sample.collaborators Sample.snapshot_a
                  = Return Sample.frame_a) by (vm_compute; reflexivity).
  assert (Hrun : update_dropdowns_and_visibility Sample.collaborators
                   (Some Sample.snapshot_a)
                 = ([], Return ({| display := "block" |},
                      [ {| opt_label := LStr "a"; opt_value := LStr "a" |} ],
                      [ {| opt_label := LStr "a"; opt_value := LStr "a" |} ],
                      Some (LStr "a"), None)))
    by (vm_compute; reflexivity).
  split; [exact Hread|]. split; [reflexivity|].
  exact (initial_selections_may_leave_chart_empty Sample.collaborators
           Sample.snapshot_a Sample.frame_a _ _ _ _ _ (Some (LStr "histogram"))
           Hread (or_intror eq_refl) Hrun).
Defined.


(** X19: after a failed ingestion attempt the other two callbacks, run on
    what the store now holds, put the page back in its starting state: the
    visualization area is hidden as in the layout, the option lists are
    empty, and the chart is [{}] whatever selections and chart type remain. *)
Theorem failed_ingestion_hides_visualization
    (C : Collaborators) (s : session) (triggered_id contents : option string)
    (n_clicks : Z) (filename : string) (url : option string)
    (kind : failure_kind) (xaxis_col yaxis_col chart_type : option label) :
  ingestion_fails C triggered_id contents filename url kind ->
  let s' := fire_update_data_store C s triggered_id contents n_clicks
              filename url in
  update_dropdowns_and_visibility C (stored_data s')
  = ([], Return (visualization_container_initial, [], [], None, None))
  /\ update_graph C (stored_data s') xaxis_col yaxis_col chart_type
     = ([], Return FigDict).
Proof.
  intros Hfail s'.
  assert (Hstore : stored_data s' = None).
  { subst s'. unfold fire_update_data_store.
    inversion Hfail as [c d f u Hup Hcsv Hxls
                       | c d f u e Hup Hcsv Hraise
                       | c d f u e Hup Hcsv Hxls Hraise
                       | c f u e Hu Hraise]; subst.
    - rewrite update_data_store_upload,
        (parse_contents_unsupported C c d filename Hup Hcsv Hxls).
      reflexivity.
    - rewrite update_data_store_upload,
        (parse_contents_csv C c d filename Hup Hcsv), Hraise.
      reflexivity.
    - rewrite update_data_store_upload,
        (parse_contents_xls C c d filename Hup Hcsv Hxls), Hraise.
      reflexivity.
    - rewrite (update_data_store_link_failure C contents n_clicks filename u e
                 Hu Hraise).
      reflexivity. }
  rewrite Hstore. split; reflexivity.
Qed.

Lemma failed_ingestion_hides_visualization_witness :
  ingestion_fails Sample.collaborators (Some "load-url-button") None
    "data.csv" (Some "dados/ausente.csv") FetchError
  /\ update_graph Sample.collaborators
       (stored_data
          (fire_update_data_store Sample.collaborators
             {| stored_data := Some Sample.snapshot_xy; upload_status := None |}
             (Some "load-url-button") None 1 "data.csv"
             (Some "dados/ausente.csv")))
       (Some (LStr "x")) (Some (LStr "y")) (Some (LStr "scatter"))
     = ([], Return FigDict).
Proof.
  assert (Hfail : ingestion_fails Sample.collaborators (Some "load-url-button")
                    None "data.csv" (Some "dados/ausente.csv") FetchError).
  { apply fails_fetch
      with (e := {| exn_class := "FileNotFoundError";
                    exn_text := "[Errno 2] No such file or directory: 'dados/ausente.csv'" |});
      reflexivity. }
  split; [exact Hfail|].
  exact (proj2 (failed_ingestion_hides_visualization Sample.collaborators
                  {| stored_data := Some Sample.snapshot_xy; upload_status := None |}
                  (Some "load-url-button") None 1 "data.csv"
                  (Some "dados/ausente.csv") FetchError
                  (Some (LStr "x")) (Some (LStr "y")) (Some (LStr "scatter"))
                  Hfail)).
Defined.

(** X20: after an ingestion that loads a frame and whose snapshot [json] is
    written, the store holds [json] whatever it held before, and
    [update_dropdowns_and_visibility] run on the store shows the area with
    the columns of the frame that [read_json] reads back from [json]. *)
Theorem loaded_frame_shows_visualization
    (C : Collaborators) (s : session) (triggered_id contents : option string)
    (n_clicks : Z) (filename : string) (url : option string)
    (df df' : DataFrame) (message json : string) :
  ingestion_loads C triggered_id contents filename url df message ->
  to_json_split C df = Return json ->
  read_json_split C json = Return df' ->
  let s' := fire_update_data_store C s triggered_id contents n_clicks
              filename url in
  stored_data s' = Some json
  /\ upload_status s' = Some {| children := message; color := "green" |}
  /\ exists options,
       update_dropdowns_and_visibility C (stored_data s')
       = ([], Return ({| display := "block" |}, options, options,
                      List.nth_error (columns df') 0,
                      List.nth_error (columns df') 1))
       /\ List.map opt_value options = columns df'.
Proof.
  intros Hloads Hjson Hread s'.
  assert (Hrun : update_data_store C triggered_id contents n_clicks filename url
                 = ([], Return (Some json,
                                {| children := message; color := "green" |}))).
  { rewrite (update_data_store_loaded C triggered_id contents n_clicks
               filename url df message Hloads), Hjson.
    reflexivity. }
  assert (Hs' : s' = {| stored_data := Some json;
                        upload_status := Some {| children := message;
                                                 color := "green" |} |}).
  { subst s'. unfold fire_update_data_store. now rewrite Hrun. }
  rewrite Hs'. cbn [stored_data upload_status].
  split; [reflexivity|]. split; [reflexivity|].
  exists (List.map (fun i => {| opt_label := i; opt_value := i |}) (columns df')).
  split.
  - unfold update_dropdowns_and_visibility. rewrite Hread.
    cbn [Py.lift Py.bind Py.ret app].
    destruct (columns df') as [|a [|b l]]; reflexivity.
  - rewrite List.map_map. apply List.map_id.
Qed.

Lemma loaded_frame_shows_visualization_witness :
  ingestion_loads Sample.collaborators (Some "upload-data")
    (Some Sample.csv_contents) "data.csv" None Sample.frame_xy
    (success_message "data.csv")
  /\ to_json_split Sample.collaborators Sample.frame_xy = Return Sample.snapshot_xy
  /\ read_json_split Sample.collaborators Sample.snapshot_xy = Return Sample.frame_xy
  /\ stored_data
       (fire_update_data_store Sample.collaborators
          {| stored_data := None; upload_status := None |}
          (Some "upload-data") (Some Sample.csv_contents) 0 "data.csv" None)
     = Some Sample.snapshot_xy.
Proof.
  assert (Hloads : ingestion_loads Sample.collaborators (Some "upload-data")
                     (Some Sample.csv_contents) "data.csv" None Sample.frame_xy
                     (success_message "data.csv")).
  { apply loads_csv with (decoded := Sample.csv_text).
    - exists "data:text/csv;base64", "eCx5CjEsMgozLDQK".
      split; vm_compute; reflexivity.
    - reflexivity.
    - vm_compute. reflexivity. }
  assert (Hjson : to_json_split Sample.collaborators Sample.frame_xy
                  = Return Sample.snapshot_xy) by (vm_compute; reflexivity).
  assert (Hread : read_json_split Sample.collaborators Sample.snapshot_xy
                  = Return Sample.frame_xy) by (vm_compute; reflexivity).
  split; [exact Hloads|]. split; [exact Hjson|]. split; [exact Hread|].
  exact (proj1 (loaded_frame_shows_visualization Sample.collaborators
                  {| stored_data := None; upload_status := None |}
                  (Some "upload-data") (Some Sample.csv_contents) 0 "data.csv"
                  None Sample.frame_xy Sample.frame_xy
                  (success_message "data.csv") Sample.snapshot_xy
                  Hloads Hjson Hread)).
Defined.
